(** * Gorilla Hub serverless API: the completion proxy [api/ai.js] and the
      catch-all data router [api/[...supabase].js].

    Both handlers are JavaScript [async] functions over dynamically typed
    JSON data. They are embedded as programs of a small free monad whose
    commands are the awaited calls to the outside world (the completion
    provider, the hosted data service); everything else is evaluated on a
    model of JavaScript values. *)

From Stdlib Require Import String Ascii List Bool ZArith QArith Lia DecimalString.
Import ListNotations.
Local Close Scope Q_scope.
Local Open Scope string_scope.
Local Open Scope list_scope.
Set Warnings "-register-all".

(* ===================================================================== *)
(** ** JavaScript values *)
(* ===================================================================== *)

Module Js.

(** JSON-shaped JavaScript values. Numbers are the rationals a JSON literal
    denotes. An object is the ordered list of its own properties; a property
    read returns the first binding of the name. *)
Inductive value : Type :=
| Undefined
| Null
| Bool (b : bool)
| Num (q : Q)
| Str (s : string)
| Arr (xs : list value)
| Obj (props : list (string * value)).

(** A thrown [Error]: its [name] and [message]. *)
Record Exn : Type := mkExn { exn_name : string; exn_message : string }.

(** ToBoolean. *)
Definition truthy (v : value) : bool :=
  match v with
  | Undefined | Null => false
  | Bool b => b
  | Num q => negb (Qnum q =? 0)%Z
  | Str s => negb (s =? "")
  | Arr _ | Obj _ => true
  end.

(** [a || b] on already evaluated operands. *)
Definition or (a b : value) : value := if truthy a then a else b.

(** [typeof v === 'string'] *)
Definition is_string (v : value) : bool :=
  match v with Str _ => true | _ => false end.

(** [v === s] for a string literal [s]. *)
Definition is_str (v : value) (s : string) : bool :=
  match v with Str t => t =? s | _ => false end.

(** [Array.isArray(v)] *)
Definition isArray (v : value) : bool :=
  match v with Arr _ => true | _ => false end.

Fixpoint lookup (k : string) (ps : list (string * value)) : value :=
  match ps with
  | [] => Undefined
  | (k', v) :: ps' => if k' =? k then v else lookup k ps'
  end.

(** [v.k] on a value that is neither [null] nor [undefined]. The names the
    handlers read ([message], [choices], [text], [content], [email], [type],
    [payload], [user], [id], [role], [code], [full_name], [user_metadata]) are
    no properties of arrays, strings, numbers or booleans, so only objects
    answer. *)
Definition get (v : value) (k : string) : value :=
  match v with Obj ps => lookup k ps | _ => Undefined end.

(** V8's wording of the TypeError raised by a property read on
    [null]/[undefined]. *)
Definition nullish_read (v : value) (k : string) : Exn :=
  mkExn "TypeError"
    ("Cannot read properties of "
       ++ (match v with Null => "null" | _ => "undefined" end)
       ++ " (reading '" ++ k ++ "')").

(** [v.k]: throws on [null] and [undefined]. *)
Definition member (v : value) (k : string) : Exn + value :=
  match v with
  | Undefined | Null => inl (nullish_read v k)
  | _ => inr (get v k)
  end.

(** [v?.k] *)
Definition opt_member (v : value) (k : string) : value :=
  match v with
  | Undefined | Null => Undefined
  | _ => get v k
  end.

(** [v[0]] on a value that is neither [null] nor [undefined]. *)
Definition index0 (v : value) : value :=
  match v with
  | Arr xs => hd Undefined xs
  | Str (String c _) => Str (String c "")
  | Obj ps => lookup "0" ps
  | _ => Undefined
  end.

(** [v?.[0]] *)
Definition opt_index0 (v : value) : value :=
  match v with
  | Undefined | Null => Undefined
  | _ => index0 v
  end.

(** [err.message || String(err)], with [Error.prototype.toString]. *)
Definition exn_toString (e : Exn) : string :=
  if exn_name e =? "" then exn_message e
  else if exn_message e =? "" then exn_name e
  else exn_name e ++ ": " ++ exn_message e.

Definition exn_text (e : Exn) : string :=
  if exn_message e =? "" then exn_toString e else exn_message e.

(** A string-or-undefined host value ([process.env.X], a request header). *)
Definition of_option (o : option string) : value :=
  match o with Some s => Str s | None => Undefined end.

(** *** Strings *)

(** [s.startsWith(p)] *)
Fixpoint startsWith (p s : string) : bool :=
  match p with
  | EmptyString => true
  | String a p' =>
      match s with
      | EmptyString => false
      | String b s' => if Ascii.eqb a b then startsWith p' s' else false
      end
  end.

Fixpoint drop (n : nat) (s : string) : string :=
  match n, s with
  | O, _ => s
  | S n', String _ s' => drop n' s'
  | S _, EmptyString => EmptyString
  end.

(** [s.replace(pat, rep)] with a string pattern: only the first occurrence,
    scanning from the left, is replaced. [rep] holds no [$] pattern at the
    call sites. *)
Fixpoint replace (pat rep s : string) : string :=
  if startsWith pat s then rep ++ drop (String.length pat) s
  else match s with
       | EmptyString => EmptyString
       | String c s' => String c (replace pat rep s')
       end.

(** [s.includes(pat)] *)
Fixpoint includes (pat s : string) : bool :=
  startsWith pat s
  || match s with
     | EmptyString => false
     | String _ s' => includes pat s'
     end.

(** [s.split(sep)[0]] for a one-character separator: the part before the
    first separator, the whole string when there is none. *)
Fixpoint split_head (sep : ascii) (s : string) : string :=
  match s with
  | EmptyString => EmptyString
  | String c s' => if Ascii.eqb c sep then EmptyString else String c (split_head sep s')
  end.

(** [{ ...v }]: the own enumerable properties copied by a spread. Array and
    string spreads copy index properties, named in decimal. *)
Fixpoint indexed (i : nat) (xs : list value) : list (string * value) :=
  match xs with
  | [] => []
  | x :: xs' => (NilEmpty.string_of_uint (Nat.to_uint i), x) :: indexed (S i) xs'
  end.

Fixpoint chars (s : string) : list value :=
  match s with
  | EmptyString => []
  | String c s' => Str (String c "") :: chars s'
  end.

Definition spread (v : value) : list (string * value) :=
  match v with
  | Obj ps => ps
  | Arr xs => indexed 0 xs
  | Str s => indexed 0 (chars s)
  | _ => []
  end.

(** Assignment of one property in an object under construction: an existing
    binding keeps its place and takes the new value. *)
Fixpoint set_prop (k : string) (v : value) (ps : list (string * value))
  : list (string * value) :=
  match ps with
  | [] => [(k, v)]
  | (k', v') :: ps' => if k' =? k then (k', v) :: ps' else (k', v') :: set_prop k v ps'
  end.

Definition assign (base extra : list (string * value)) : list (string * value) :=
  fold_left (fun acc p => set_prop (fst p) (snd p) acc) extra base.

(** What [JSON.stringify] keeps of an object's own properties: those whose
    value is [undefined] are left out. *)
Definition stringify_props (ps : list (string * value)) : list (string * value) :=
  filter (fun p => match snd p with Undefined => false | _ => true end) ps.

End Js.

(* ===================================================================== *)
(** ** Programs: awaited calls, exceptions, logging *)
(* ===================================================================== *)

Section Programs.

(** [C] are the calls a handler awaits, [Rp] what they resolve to. *)
Variables C Rp : Type.

Inductive Prog (A : Type) : Type :=
| Ret (a : A)
| Throw (e : Js.Exn)
| Log (tag : string) (e : Js.Exn) (k : Prog A)
| Call (c : C) (k : Rp -> Prog A).

Arguments Ret {A} a.
Arguments Throw {A} e.
Arguments Log {A} tag e k.
Arguments Call {A} c k.

Fixpoint bind {A B} (p : Prog A) (f : A -> Prog B) : Prog B :=
  match p with
  | Ret a => f a
  | Throw e => Throw e
  | Log tag e k => Log tag e (bind k f)
  | Call c k => Call c (fun r => bind (k r) f)
  end.

(** [try { p } catch (err) { h err }] *)
Fixpoint try_catch {A} (p : Prog A) (h : Js.Exn -> Prog A) : Prog A :=
  match p with
  | Ret a => Ret a
  | Throw e => h e
  | Log tag e k => Log tag e (try_catch k h)
  | Call c k => Call c (fun r => try_catch (k r) h)
  end.

(** Evaluation of an expression that may throw. *)
Definition lift {A} (x : Js.Exn + A) : Prog A :=
  match x with inl e => Throw e | inr a => Ret a end.

(** What an observer of one invocation sees. *)
Inductive Event : Type :=
| Called (c : C) (r : Rp)
| Logged (tag : string) (e : Js.Exn).

(** [reaches p t p']: [p] issues exactly the calls of [t], in that order,
    receives the replies recorded there, and goes on as [p']. *)
Inductive reaches {A} : Prog A -> list Event -> Prog A -> Prop :=
| reaches_here p : reaches p [] p
| reaches_Log tag e k t p' :
    reaches k t p' -> reaches (Log tag e k) (Logged tag e :: t) p'
| reaches_Call c k r t p' :
    reaches (k r) t p' -> reaches (Call c k) (Called c r :: t) p'.

(** How an invocation ends: a returned value or an uncaught exception. *)
Definition finished {A} (o : Js.Exn + A) : Prog A :=
  match o with inl e => Throw e | inr a => Ret a end.

(** [runs p t o]: [p] ends with [o] after the interaction [t]. *)
Definition runs {A} (p : Prog A) (t : list Event) (o : Js.Exn + A) : Prop :=
  reaches p t (finished o).

(** [all_returns Q p]: whatever the replies, a value [p] returns satisfies
    [Q]. *)
Fixpoint all_returns {A} (Q : A -> Prop) (p : Prog A) : Prop :=
  match p with
  | Ret a => Q a
  | Throw _ => True
  | Log _ _ k => all_returns Q k
  | Call _ k => forall r, all_returns Q (k r)
  end.

(** Execution against a world [W] that answers the calls. *)
Fixpoint exec {A W} (serve : C -> W -> Rp * W) (p : Prog A) (w : W)
  : (Js.Exn + A) * W :=
  match p with
  | Ret a => (inr a, w)
  | Throw e => (inl e, w)
  | Log _ _ k => exec serve k w
  | Call c k => let (r, w') := serve c w in exec serve (k r) w'
  end.

(** The calls issued during an execution. *)
Fixpoint calls {A W} (serve : C -> W -> Rp * W) (p : Prog A) (w : W) : list C :=
  match p with
  | Ret _ | Throw _ => []
  | Log _ _ k => calls serve k w
  | Call c k => let (r, w') := serve c w in c :: calls serve (k r) w'
  end.

End Programs.

Arguments Ret {C Rp A} a.
Arguments Throw {C Rp A} e.
Arguments Log {C Rp A} tag e k.
Arguments Call {C Rp A} c k.
Arguments bind {C Rp A B} p f.
Arguments try_catch {C Rp A} p h.
Arguments lift {C Rp A} x.
Arguments Called {C Rp} c r.
Arguments Logged {C Rp} tag e.
Arguments reaches {C Rp A} _ _ _.
Arguments finished {C Rp A} o.
Arguments runs {C Rp A} p t o.
Arguments all_returns {C Rp A} Q p.
Arguments exec {C Rp A W} serve p w.
Arguments calls {C Rp A W} serve p w.

Declare Scope prog_scope.
Delimit Scope prog_scope with prog.
Notation "x <- p ;; q" := (bind p (fun x => q))
  (at level 100, p at next level, right associativity) : prog_scope.

(** [res.status(code).json(body)] *)
Record Response : Type := respond { status : nat; json : Js.value }.

Definition error_body (msg : Js.value) : Js.value := Js.Obj [("error", msg)].

(* ===================================================================== *)
(** ** api/ai.js: the completion proxy *)
(* ===================================================================== *)

Module Ai.
Import Js.

(** The parts of [req] and of [process.env] the handler reads. *)
Record Request : Type := { method : string; body : value }.
Record Env : Type := { OPENAI_API_KEY : option string }.

(** [fetch(url, { method, headers, body: JSON.stringify(payload) })];
    [payload] is the value handed to [JSON.stringify]. *)
Inductive Cmd : Type :=
| Fetch (url meth : string) (headers : list (string * string)) (payload : value).

(** The resolved [Response] of [fetch]: [r.ok], and what [await r.text()] and
    [await r.json()] give (either may reject). *)
Record FetchResponse : Type :=
  { ok : bool; text : Exn + string; json_body : Exn + value }.

(** [await fetch(...)]: rejected, or resolved with a response. *)
Definition Reply : Type := (Exn + FetchResponse)%type.

Definition system_prompt : string :=
  "You are Gorilla Hub assistant. Provide concise, friendly, and accurate answers about Gorilla Tag, tutorials, cosmetics and site functionality.".

Definition payload (message : value) : value :=
  Obj [("model", Str "gpt-3.5-turbo");
       ("messages",
        Arr [Obj [("role", Str "system"); ("content", Str system_prompt)];
             Obj [("role", Str "user"); ("content", message)]]);
       ("max_tokens", Num 800);
       ("temperature", Num 0.7)].

Definition completion_call (key : string) (message : value) : Cmd :=
  Fetch "https://api.openai.com/v1/chat/completions" "POST"
    [("Content-Type", "application/json");
     ("Authorization", ("Bearer " ++ key)%string)]
    (payload message).

(** [json.choices?.[0]?.message?.content || json?.choices?.[0]?.text || '']:
    the first operand reads [json.choices] without a guard on [json]. *)
Definition extract_reply (json : value) : Exn + value :=
  match member json "choices" with
  | inl e => inl e
  | inr choices =>
      let content := opt_member (opt_member (opt_index0 choices) "message") "content" in
      if truthy content then inr content
      else
        let text := opt_member (opt_index0 (opt_member json "choices")) "text" in
        inr (or text (Str ""))
  end.

(** [const { message } = req.body || {};] *)
Definition message_of (req : Request) : value :=
  get (or (body req) (Obj [])) "message".

Definition on_error (err : Exn) : Prog Cmd Reply Response :=
  Log "AI handler error" err
    (Ret (respond 500 (error_body (Str (exn_text err))))).

Definition handler (env : Env) (req : Request) : Prog Cmd Reply Response :=
  try_catch
    (if negb (method req =? "POST")
     then Ret (respond 405 (error_body (Str "Method not allowed")))
     else
       let message := message_of req in
       if negb (truthy message) || negb (is_string message)
       then Ret (respond 400 (error_body (Str "Invalid message")))
       else
         match OPENAI_API_KEY env with
         | None | Some "" =>
             Ret (respond 500
                    (error_body (Str "OpenAI key not set in environment variables")))
         | Some key =>
             Call (completion_call key message) (fun r =>
               match r with
               | inl e => Throw e
               | inr r =>
                   if negb (ok r)
                   then (text <- lift (text r) ;;
                         Ret (respond 500
                                (Obj [("error", Str "OpenAI error");
                                      ("details", Str text)])))%prog
                   else (json <- lift (json_body r) ;;
                         reply <- lift (extract_reply json) ;;
                         Ret (respond 200 (Obj [("reply", reply); ("raw", json)])))%prog
               end)
         end)
    on_error.

(** The two fields of a provider reply the specification names:
    [choices[0].message.content] and [choices[0].text], read leniently. *)
Definition content_field (json : value) : value :=
  opt_member (opt_member (opt_index0 (opt_member json "choices")) "message") "content".

Definition text_field (json : value) : value :=
  opt_member (opt_index0 (opt_member json "choices")) "text".

(** The provider as the world of [exec]: a function from the request sent to
    the outcome of the fetch. *)
Definition Provider : Type := Cmd -> Reply.

Definition serve (c : Cmd) (p : Provider) : Reply * Provider := (p c, p).

End Ai.

(* ===================================================================== *)
(** ** api/[...supabase].js: the catch-all data router *)
(* ===================================================================== *)

Module Supabase.
Import Js.

(** The parts of [req] the handler reads: [req.method], [req.url],
    [req.headers.authorization] and [req.body]. *)
Record Request : Type :=
  { method : string; url : string; authorization : option string; body : value }.

Inductive Table : Type := settings | tutorials | cosmetics | users.

(** The calls on [supabaseAdmin] the handler awaits. *)
Inductive Cmd : Type :=
| GetUser (token : string)
    (* auth.getUser(token) *)
| SelectSingle (t : Table)
    (* from(t).select('*').limit(1).single() *)
| SelectOrdered (t : Table) (column : string)
    (* from(t).select('*').order(column, { ascending: true }) *)
| SelectMaybeSingle (t : Table) (columns : string) (id : value)
    (* from(t).select(columns).eq('id', id).maybeSingle() *)
| Upsert (t : Table) (row : value)
    (* from(t).upsert(row, { onConflict: ['id'] }) *)
| Delete (t : Table)
    (* from(t).delete() *)
| Insert (t : Table) (rows : list value).
    (* from(t).insert(rows) *)

(** What such a call resolves to: the [{ data, error }] pair. *)
Record Result : Type := result { data : value; error : value }.

(** An awaited call resolves, or rejects with an exception. *)
Definition Reply : Type := (Exn + Result)%type.

Definition P := Prog Cmd Reply.

(** [const { data, error } = await c; k] *)
Definition await {A} (c : Cmd) (k : Result -> P A) : P A :=
  Call c (fun r => match r with inl e => Throw e | inr x => k x end).

(** [url.replace(/^\/api\/?/, '')] *)
Definition strip_api (url : string) : string :=
  if startsWith "/api/" url then drop 5 url
  else if startsWith "/api" url then drop 4 url
  else url.

(** [const authHeader = req.headers.authorization || '';
     const token = authHeader.replace('Bearer ', '') || null;]
    [None] is the [null] token. *)
Definition bearer_token (req : Request) : option string :=
  let authHeader := match authorization req with Some h => h | None => "" end in
  let token := replace "Bearer " "" authHeader in
  if token =? "" then None else Some token.

(** [res.status(500).json({ error: error.message || error })] *)
Definition fail500 (error : value) : Response :=
  respond 500 (error_body (or (get error "message") error)).

Definition ok_true : value := Obj [("ok", Bool true)].

(** [email?.split('@')[0]] *)
Definition local_part (email : value) : Exn + value :=
  match email with
  | Undefined | Null => inr Undefined
  | Str s => inr (Str (split_head "@" s))
  | _ => inl (mkExn "TypeError" "user.email?.split is not a function")
  end.

(** GET supabase/data/site *)
Definition data_site : P Response :=
  await (SelectSingle settings) (fun r =>
    if truthy (error r) && negb (is_str (get (error r) "code") "PGRST116")
    then Ret (fail500 (error r))
    else Ret (respond 200
                (or (data r)
                    (Obj [("title", Str "Gorilla Hub"); ("about", Str "Welcome")])))).

(** GET supabase/data/tutorials and GET supabase/data/cosmetics *)
Definition data_list (t : Table) (column : string) : P Response :=
  await (SelectOrdered t column) (fun r =>
    if truthy (error r) then Ret (fail500 (error r))
    else Ret (respond 200 (data r))).

(** The row [sync_user] upserts. *)
Definition sync_row (user email : value) : Exn + value :=
  let full_name := opt_member (get user "user_metadata") "full_name" in
  match (if truthy full_name then inr full_name
         else local_part (get user "email")) with
  | inl e => inl e
  | inr name =>
      inr (Obj [("id", get user "id");
                ("email", or (or (get user "email") email) (Str ""));
                ("role", Str "user");
                ("name", name)])
  end.

(** POST supabase/data/sync_user *)
Definition sync_user (req : Request) : P Response :=
  match bearer_token req with
  | None => Ret (respond 400 (error_body (Str "Missing token")))
  | Some token =>
      await (GetUser token) (fun r =>
        if truthy (error r)
        then Ret (respond 401 (error_body (Str "Invalid token")))
        else
          (user <- lift (member (data r) "user") ;;
           if negb (truthy user)
           then Ret (respond 404 (error_body (Str "User not found")))
           else
             let email := get (or (body req) (Obj [])) "email" in
             row <- lift (sync_row user email) ;;
             await (Upsert users row) (fun up =>
               if truthy (error up) then Ret (fail500 (error up))
               else Ret (respond 200 ok_true)))%prog)
  end.

(** The profile [me] answers with when the [users] table has no row. *)
Definition default_profile (id user : value) : Exn + value :=
  match local_part (get user "email") with
  | inl e => inl e
  | inr part =>
      inr (Obj [("id", id);
                ("email", get user "email");
                ("role", Str "user");
                ("name", or part (Str "User"))])
  end.

(** GET supabase/data/me *)
Definition me (req : Request) : P Response :=
  match bearer_token req with
  | None => Ret (respond 401 (error_body (Str "Not authenticated")))
  | Some token =>
      await (GetUser token) (fun r =>
        if truthy (error r)
        then Ret (respond 401 (error_body (Str "Invalid token")))
        else
          (user <- lift (member (data r) "user") ;;
           id <- lift (member user "id") ;;
           await (SelectMaybeSingle users "*" id) (fun q =>
             if truthy (error q) then Ret (fail500 (error q))
             else if truthy (data q) then Ret (respond 200 (data q))
             else (profile <- lift (default_profile id user) ;;
                   Ret (respond 200 profile))))%prog)
  end.

(** [const arr = Array.isArray(payload) ? payload : [];] *)
Definition as_array (payload : value) : list value :=
  match payload with Arr xs => xs | _ => [] end.

(** The [tutorials] and [cosmetics] branches: delete all, then insert. The
    result of the delete is not looked at. *)
Definition replace_collection (t : Table) (payload : value) : P Response :=
  let arr := as_array payload in
  await (Delete t) (fun _ =>
    match arr with
    | [] => Ret (respond 200 ok_true)
    | _ :: _ =>
        await (Insert t arr) (fun r =>
          if truthy (error r) then Ret (fail500 (error r))
          else Ret (respond 200 ok_true))
    end).

(** The [site] branch: upsert of [{ id: 1, ...settingsRow }]. *)
Definition update_site (payload : value) : P Response :=
  let settingsRow := if isArray payload then index0 payload else payload in
  await (Upsert settings (Obj (assign [("id", Num 1)] (spread settingsRow)))) (fun r =>
    if truthy (error r) then Ret (fail500 (error r))
    else Ret (respond 200 (data r))).

(** The update an authorised caller asked for. *)
Definition perform_update (req : Request) : P Response :=
  let body := or (body req) (Obj []) in
  let type := get body "type" in
  let payload := get body "payload" in
  if negb (truthy type) then Ret (respond 400 (error_body (Str "Missing type")))
  else if is_str type "site" then update_site payload
  else if is_str type "tutorials" then replace_collection tutorials payload
  else if is_str type "cosmetics" then replace_collection cosmetics payload
  else Ret (respond 400 (error_body (Str "Unknown update type"))).

(** [row?.role || 'user'] *)
Definition effective_role (row : value) : value :=
  or (opt_member row "role") (Str "user").

(** [role === 'admin' || role === 'dev'] *)
Definition privileged (role : value) : bool :=
  is_str role "admin" || is_str role "dev".

(** POST supabase/admin/update *)
Definition admin_update (req : Request) : P Response :=
  match bearer_token req with
  | None => Ret (respond 401 (error_body (Str "Missing token")))
  | Some token =>
      await (GetUser token) (fun r =>
        if truthy (error r)
        then Ret (respond 401 (error_body (Str "Invalid token")))
        else
          (user <- lift (member (data r) "user") ;;
           if negb (truthy user)
           then Ret (respond 401 (error_body (Str "Invalid token")))
           else
             let uid := get user "id" in
             await (SelectMaybeSingle users "role" uid) (fun q =>
               if truthy (error q) then Ret (fail500 (error q))
               else if negb (privileged (effective_role (data q)))
               then Ret (respond 403 (error_body (Str "Insufficient privileges")))
               else perform_update req))%prog)
  end.

Definition on_error (err : Exn) : P Response :=
  Log "supabase catch-all error" err
    (Ret (respond 500 (error_body (Str (exn_text err))))).

Definition handler (req : Request) : P Response :=
  let path := strip_api (url req) in
  try_catch
    (if (method req =? "GET") && startsWith "supabase/data/site" path
     then data_site
     else if (method req =? "GET") && startsWith "supabase/data/tutorials" path
     then data_list tutorials "title"
     else if (method req =? "GET") && startsWith "supabase/data/cosmetics" path
     then data_list cosmetics "name"
     else if (method req =? "POST") && startsWith "supabase/data/sync_user" path
     then sync_user req
     else if (method req =? "GET") && startsWith "supabase/data/me" path
     then me req
     else if (method req =? "POST") && startsWith "supabase/admin/update" path
     then admin_update req
     else Ret (respond 404 (error_body (Str "Not found"))))
    on_error.

(** *** The hosted data service

    The service is not part of the repository. This is the behaviour its
    client library documents for the calls above, on tables held as ordered
    lists of rows. [faults] injects failures: each table call takes the head
    of the list; [Some r] makes the call resolve to [r] without touching the
    store, [None] (or an exhausted list) lets the service carry it out. *)

Record Store : Type :=
  { settings_rows : list value;
    tutorials_rows : list value;
    cosmetics_rows : list value;
    users_rows : list value }.

Definition rows (t : Table) (s : Store) : list value :=
  match t with
  | settings => settings_rows s
  | tutorials => tutorials_rows s
  | cosmetics => cosmetics_rows s
  | users => users_rows s
  end.

Definition set_rows (t : Table) (rs : list value) (s : Store) : Store :=
  match t with
  | settings => {| settings_rows := rs; tutorials_rows := tutorials_rows s;
                   cosmetics_rows := cosmetics_rows s; users_rows := users_rows s |}
  | tutorials => {| settings_rows := settings_rows s; tutorials_rows := rs;
                    cosmetics_rows := cosmetics_rows s; users_rows := users_rows s |}
  | cosmetics => {| settings_rows := settings_rows s; tutorials_rows := tutorials_rows s;
                    cosmetics_rows := rs; users_rows := users_rows s |}
  | users => {| settings_rows := settings_rows s; tutorials_rows := tutorials_rows s;
                cosmetics_rows := cosmetics_rows s; users_rows := rs |}
  end.

(** Equality of primary-key values. *)
Definition same_key (a b : value) : bool :=
  match a, b with
  | Str s, Str t => s =? t
  | Num p, Num q => Qeq_bool p q
  | _, _ => false
  end.

(** [.eq('id', id)] *)
Definition has_id (id row : value) : bool := same_key (get row "id") id.

(** The error of [.single()] on an empty result. *)
Definition no_rows_error : value :=
  Obj [("code", Str "PGRST116");
       ("details", Str "The result contains 0 rows");
       ("hint", Null);
       ("message", Str "JSON object requested, multiple (or no) rows returned")].

Definition many_rows_error : value :=
  Obj [("code", Str "PGRST116");
       ("details", Str "Results contain more than one row");
       ("hint", Null);
       ("message", Str "JSON object requested, multiple (or no) rows returned")].

(** [.select('*')] and [.select('role')] *)
Definition select_columns (columns : string) (row : value) : value :=
  if columns =? "*" then row else Obj [(columns, get row columns)].

(** The body of a write as it travels: [JSON.stringify] of the row. *)
Definition wire (row : value) : value :=
  match row with Obj ps => Obj (stringify_props ps) | _ => row end.

(** [.order(column, { ascending: true })]: strings in code-point order, rows
    without a string in the column last. *)
Definition column_leb (column : string) (a b : value) : bool :=
  match get a column, get b column with
  | Str x, Str y => String.leb x y
  | Str _, _ => true
  | _, Str _ => false
  | _, _ => true
  end.

Fixpoint insert_ordered (column : string) (r : value) (rs : list value) : list value :=
  match rs with
  | [] => [r]
  | r' :: rs' =>
      if column_leb column r r' then r :: rs
      else r' :: insert_ordered column r rs'
  end.

Definition order (column : string) (rs : list value) : list value :=
  fold_right (insert_ordered column) [] rs.

(** [upsert] on conflict of [id]. With [ignoreDuplicates] unset, as in both
    calls of the handler, a row with the same key takes the columns sent
    ([resolution=merge-duplicates]); with it set the stored row is kept. *)
Fixpoint upsert_row (ignoreDuplicates : bool) (row : value) (rs : list value)
  : list value :=
  match rs with
  | [] => [row]
  | r :: rs' =>
      if has_id (get row "id") r
      then (if ignoreDuplicates then r else Obj (assign (spread r) (spread row))) :: rs'
      else r :: upsert_row ignoreDuplicates row rs'
  end.

Definition perform (c : Cmd) (s : Store) : Result * Store :=
  match c with
  | GetUser _ => (result Null Null, s)
  | SelectSingle t =>
      match rows t s with
      | [] => (result Null no_rows_error, s)
      | r :: _ => (result r Null, s)
      end
  | SelectOrdered t column => (result (Arr (order column (rows t s))) Null, s)
  | SelectMaybeSingle t columns id =>
      match filter (has_id id) (rows t s) with
      | [] => (result Null Null, s)
      | [r] => (result (select_columns columns r) Null, s)
      | _ => (result Null many_rows_error, s)
      end
  | Upsert t row => (result Null Null, set_rows t (upsert_row false (wire row) (rows t s)) s)
  | Delete t => (result Null Null, set_rows t [] s)
  | Insert t rs => (result Null Null, set_rows t (rows t s ++ map wire rs) s)
  end.

Record World : Type :=
  { store : Store;
    sessions : string -> Reply;      (* what [auth.getUser] answers per token *)
    faults : list (option Reply) }.

Definition serve (c : Cmd) (w : World) : Reply * World :=
  match c with
  | GetUser token => (sessions w token, w)
  | _ =>
      match faults w with
      | Some r :: fs =>
          (r, {| store := store w; sessions := sessions w; faults := fs |})
      | None :: fs =>
          let (r, s) := perform c (store w) in
          (inr r, {| store := s; sessions := sessions w; faults := fs |})
      | [] =>
          let (r, s) := perform c (store w) in
          (inr r, {| store := s; sessions := sessions w; faults := [] |})
      end
  end.

(** One invocation of the handler against the service. *)
Definition run (req : Request) (w : World) : (Exn + Response) * World :=
  exec serve (handler req) w.

(** *** The route table, as the specification words it

    The ordered [(method, pathPrefix, handler)] entries; an entry matches when
    the method is equal and the prefix is a string prefix of the normalised
    path; the first entry that matches wins. *)
Definition route_table : list (string * string * (Request -> P Response)) :=
  [("GET", "supabase/data/site", fun _ => data_site);
   ("GET", "supabase/data/tutorials", fun _ => data_list tutorials "title");
   ("GET", "supabase/data/cosmetics", fun _ => data_list cosmetics "name");
   ("POST", "supabase/data/sync_user", sync_user);
   ("GET", "supabase/data/me", me);
   ("POST", "supabase/admin/update", admin_update)].

Definition route_matches (req : Request) (route : string * string) : bool :=
  (method req =? fst route) && startsWith (snd route) (strip_api (url req)).

Definition entry_matches (req : Request)
    (e : string * string * (Request -> P Response)) : bool :=
  route_matches req (fst e).

Definition matched (req : Request) : bool := existsb (entry_matches req) route_table.

Definition dispatch (req : Request) : P Response :=
  match find (entry_matches req) route_table with
  | Some e => snd e req
  | None => Ret (respond 404 (error_body (Str "Not found")))
  end.

(** The routes that resolve a bearer token. *)
Definition authenticated_routes : list (string * string) :=
  [("POST", "supabase/data/sync_user");
   ("GET", "supabase/data/me");
   ("POST", "supabase/admin/update")].

Definition on_authenticated_route (req : Request) : bool :=
  existsb (route_matches req) authenticated_routes.

(** A request that carries no bearer token: no Authorization header, an empty
    one, or the bare scheme. *)
Definition carries_no_token (req : Request) : Prop :=
  authorization req = None
  \/ authorization req = Some ""
  \/ authorization req = Some "Bearer ".

(** The row of [sync_user] for a user with a string id, as it reaches the
    service. *)
Definition sent_row (uid : string) (email name : value) : value :=
  wire (Obj [("id", Str uid); ("email", email); ("role", Str "user"); ("name", name)]).

(** The two exchanges of [admin/update] before the update itself: identity
    resolution, then the role lookup for the resolved id. *)
Definition gate_trace (token : string) (session lookup : Result)
  : list (Event Cmd Reply) :=
  [Called (GetUser token) (inr session);
   Called (SelectMaybeSingle users "role" (get (get (data session) "user") "id"))
          (inr lookup)].

(** *** Sample data for the worked cases *)

Definition ann : value := Obj [("id", Str "u1"); ("email", Str "ann@example.org")].

Definition ann_row (role : string) : value :=
  Obj [("id", Str "u1"); ("email", Str "ann@example.org");
       ("role", Str role); ("name", Str "Ann")].

Definition ann_identity : Result := result (Obj [("user", ann)]) Null.

Definition ann_session (token : string) : Reply :=
  if token =? "ann-token"
  then inr ann_identity
  else inr (result (Obj [("user", Null)]) (Obj [("message", Str "invalid JWT")])).

(** A store where Ann has a profile row with the given role. *)
Definition sample_world (role : string) (fs : list (option Reply)) : World :=
  {| store := {| settings_rows := [];
                 tutorials_rows := [Obj [("title", Str "Old")]];
                 cosmetics_rows := [];
                 users_rows := [ann_row role] |};
     sessions := ann_session;
     faults := fs |}.

Definition sample_request (m u : string) (b : value) : Request :=
  {| method := m; url := u; authorization := Some "Bearer ann-token"; body := b |}.

Definition replace_tutorials : Request :=
  sample_request "POST" "/api/supabase/admin/update"
    (Obj [("type", Str "tutorials"); ("payload", Arr [Obj [("title", Str "A")]])]).

Definition sync_ann : Request :=
  sample_request "POST" "/api/supabase/data/sync_user"
    (Obj [("email", Str "ann@example.org")]).

Definition failure (message : string) : option Reply :=
  Some (inr (result Null (Obj [("message", Str message)]))).

Definition admin_request (b : value) : Request :=
  sample_request "POST" "/api/supabase/admin/update" b.

Definition reported_admin : Result := result (Obj [("role", Str "admin")]) Null.

End Supabase.

(* ===================================================================== *)
(** ** Observing programs *)
(* ===================================================================== *)

Section Monitors.

Context {C Rp A : Type}.

(** No course of replies lets an exception out of [p]. *)
Fixpoint never_throws (p : Prog C Rp A) : Prop :=
  match p with
  | Ret _ => True
  | Throw _ => False
  | Log _ _ k => never_throws k
  | Call _ k => forall r, never_throws (k r)
  end.

(** A monitor with states [S] follows the calls and their replies; every call
    [p] issues must be allowed in the state reached so far. *)
Fixpoint guarded {S} (step : S -> C -> Rp -> S) (allowed : S -> C -> Prop)
    (s : S) (p : Prog C Rp A) : Prop :=
  match p with
  | Ret _ | Throw _ => True
  | Log _ _ k => guarded step allowed s k
  | Call c k => allowed s c /\ forall r, guarded step allowed (step s c r) (k r)
  end.

(** The monitor's state after an interaction. *)
Definition observe {S} (step : S -> C -> Rp -> S) (s : S) (t : list (Event C Rp)) : S :=
  fold_left (fun s ev => match ev with
                         | Called c r => step s c r
                         | Logged _ _ => s
                         end) t s.

(** The calls of an interaction, in order. *)
Definition called (t : list (Event C Rp)) : list C :=
  flat_map (fun ev => match ev with Called c _ => [c] | Logged _ _ => [] end) t.

(** [served serve w t w']: a world that starts as [w] gives the replies of
    [t] to the calls of [t], and is [w'] afterwards. *)
Inductive served {W} (serve : C -> W -> Rp * W) : W -> list (Event C Rp) -> W -> Prop :=
| served_none w : served serve w [] w
| served_Logged tag e w t w' :
    served serve w t w' -> served serve w (Logged tag e :: t) w'
| served_Called c r w w1 t w' :
    serve c w = (r, w1) -> served serve w1 t w' ->
    served serve w (Called c r :: t) w'.

End Monitors.

(** A body that reports a failure: an object whose first field is [error]. *)
Definition reports_error (body : Js.value) : Prop :=
  match body with
  | Js.Obj ((k, _) :: _) => k = "error"
  | _ => False
  end.

(** What the completion proxy can answer. *)
Definition ai_answer (resp : Response) : Prop :=
  (status resp = 200
   /\ exists reply raw, json resp = Js.Obj [("reply", reply); ("raw", raw)])
  \/ (In (status resp) [400; 405; 500] /\ reports_error (json resp)).

(** What the data router can answer. *)
Definition supabase_answer (resp : Response) : Prop :=
  status resp = 200
  \/ (In (status resp) [400; 401; 403; 404; 500] /\ reports_error (json resp)).

(* ===================================================================== *)
(** ** api/[...supabase].js: the route-parts helper, and who may call what *)
(* ===================================================================== *)

Module Routes.
Import Js.

(** [s.split(sep)] for a one-character separator. *)
Fixpoint split (sep : ascii) (s : string) : list string :=
  match s with
  | EmptyString => [EmptyString]
  | String c s' =>
      if Ascii.eqb c sep then EmptyString :: split sep s'
      else match split sep s' with
           | [] => [String c EmptyString]
           | piece :: pieces => String c piece :: pieces
           end
  end.

(** [pieces.join(sep)] *)
Fixpoint join (sep : ascii) (pieces : list string) : string :=
  match pieces with
  | [] => EmptyString
  | [piece] => piece
  | piece :: rest => (piece ++ String sep (join sep rest))%string
  end.

(** [Boolean(s)] on a string. *)
Definition nonempty (s : string) : bool := negb (s =? "").

(** [getRouteParts(req)], on [req.query] and [req.url] (the empty string
    stands for a missing url, falsy as well). *)
Definition getRouteParts (query : value) (url : string) : list value :=
  let slug :=
    or (or (opt_member query "supabase") (opt_member query "slug"))
       (opt_member query "...supabase") in
  match slug with
  | Arr parts => parts
  | Str s => [Str s]
  | _ =>
      if nonempty url
      then tl (map Str (filter nonempty (split "/" url)))
      else []
  end.

End Routes.

Module Policy.
Import Js Supabase.

(** What the replies seen so far establish about the caller: the id the
    identity service answered for the token, that id again when the answer
    held a user, and the role reported for an id. *)
Record Clearance : Type :=
  { answered : option value;
    identity : option value;
    reported : option (value * value) }.

Definition nobody : Clearance :=
  {| answered := None; identity := None; reported := None |}.

(** The id in a reply of [auth.getUser] that carries no error. *)
Definition answered_id (r : Reply) : option value :=
  match r with
  | inl _ => None
  | inr x =>
      if truthy (error x) then None
      else Some (get (get (data x) "user") "id")
  end.

(** The id of the user a reply of [auth.getUser] resolves to, if any. *)
Definition resolved_id (r : Reply) : option value :=
  match r with
  | inl _ => None
  | inr x =>
      if truthy (error x) then None
      else if truthy (get (data x) "user")
           then Some (get (get (data x) "user") "id")
           else None
  end.

Definition step (s : Clearance) (c : Cmd) (r : Reply) : Clearance :=
  match c, r with
  | GetUser _, _ =>
      {| answered := answered_id r; identity := resolved_id r; reported := None |}
  | SelectMaybeSingle users _ id, inr x =>
      if truthy (error x) then s
      else {| answered := answered s;
              identity := identity s;
              reported := Some (id, effective_role (data x)) |}
  | _, _ => s
  end.

(** Reads of the public tables are free. A row is looked up by id only for
    the id the identity service answered. The [users] table is written only
    for the resolved caller, and only with the role 'user'. Every other
    write needs a role 'admin' or 'dev' reported for the resolved caller. *)
Definition allowed (s : Clearance) (c : Cmd) : Prop :=
  match c with
  | GetUser _ | SelectSingle _ | SelectOrdered _ _ => True
  | SelectMaybeSingle _ _ id => answered s = Some id
  | Upsert users row =>
      identity s = Some (get row "id") /\ get row "role" = Str "user"
  | Upsert _ _ | Delete _ | Insert _ _ =>
      exists id role,
        identity s = Some id /\ reported s = Some (id, role)
        /\ privileged role = true
  end.

(** The calls that change the store. *)
Definition is_write (c : Cmd) : bool :=
  match c with
  | Upsert _ _ | Delete _ | Insert _ _ => true
  | _ => false
  end.

(** A program none of whose calls is a write. *)
Definition reads_only {A} (p : P A) : Prop :=
  guarded (fun (s : unit) (_ : Cmd) (_ : Reply) => s)
          (fun _ c => is_write c = false) tt p.

End Policy.

(* ===================================================================== *)
(** ** Facts about programs *)
(* ===================================================================== *)

Section ProgramFacts.

Context {C Rp A : Type}.

Lemma reaches_app (p q r : Prog C Rp A) (t u : list (Event C Rp)) :
  reaches p t q -> reaches q u r -> reaches p (t ++ u) r.
Proof.
  induction 1 as [p | tag e k t p' _ IH | c k x t p' _ IH]; intro Hq; simpl.
  - exact Hq.
  - apply reaches_Log, IH, Hq.
  - apply reaches_Call, IH, Hq.
Qed.

Lemma reaches_Call_inv (c c' : C) (k : Rp -> Prog C Rp A) (r : Rp)
    (t : list (Event C Rp)) (p' : Prog C Rp A) :
  reaches (Call c k) (Called c' r :: t) p' -> c' = c /\ reaches (k r) t p'.
Proof. inversion 1; subst; split; [reflexivity | assumption]. Qed.

(** The replies fix the course: a longer interaction passes through the
    point a shorter one reaches. *)
Lemma reaches_split (p q r : Prog C Rp A) (t u : list (Event C Rp)) :
  reaches p t q -> reaches p (t ++ u) r -> reaches q u r.
Proof.
  induction 1 as [p | tag e k t p' _ IH | c k x t p' _ IH]; intro H;
    simpl in H.
  - exact H.
  - inversion H; subst. apply IH. assumption.
  - inversion H; subst. apply IH. assumption.
Qed.

Lemma all_returns_reaches (Q : A -> Prop) (p p' : Prog C Rp A)
    (t : list (Event C Rp)) :
  reaches p t p' -> all_returns Q p -> all_returns Q p'.
Proof.
  induction 1 as [p | tag e k t p' _ IH | c k x t p' _ IH]; intro H.
  - exact H.
  - apply IH. exact H.
  - apply IH. apply (H x).
Qed.

Lemma all_returns_runs (Q : A -> Prop) (p : Prog C Rp A)
    (t : list (Event C Rp)) (a : A) :
  all_returns Q p -> runs p t (inr a) -> Q a.
Proof.
  intros H R. exact (all_returns_reaches Q p (Ret a) t R H).
Qed.

(** A program that returns at once calls nobody and leaves every world as it
    found it. *)
Lemma exec_Ret {W} (serve : C -> W -> Rp * W) (a : A) (w : W) :
  exec serve (Ret a) w = (inr a, w) /\ calls serve (Ret a : Prog C Rp A) w = [].
Proof. split; reflexivity. Qed.

End ProgramFacts.

Ltac step_call := apply reaches_Call; cbn.
Ltac step_log := apply reaches_Log; cbn.
Ltac finish := apply reaches_here.

(* ===================================================================== *)
(** ** The completion proxy *)
(* ===================================================================== *)

Section AiFacts.
Import Js Ai.

Lemma valid_message_inv (v : value) :
  negb (truthy v) || negb (is_string v) = false ->
  exists s, v = Str s /\ s <> "".
Proof.
  destruct v as [ | | b | q | s | xs | ps]; cbn; intro H;
    try (rewrite ?orb_true_r in H; discriminate).
  exists s; split; [reflexivity|].
  rewrite orb_false_r in H. apply negb_false_iff, negb_true_iff in H.
  now apply String.eqb_neq in H.
Qed.

Lemma handler_post (env : Env) (req : Request) :
  method req = "POST" ->
  handler env req =
  try_catch
    (let message := message_of req in
     if negb (truthy message) || negb (is_string message)
     then Ret (respond 400 (error_body (Str "Invalid message")))
     else
       match OPENAI_API_KEY env with
       | None | Some "" =>
           Ret (respond 500
                  (error_body (Str "OpenAI key not set in environment variables")))
       | Some key =>
           Call (completion_call key message) (fun r =>
             match r with
             | inl e => Throw e
             | inr r =>
                 if negb (ok r)
                 then (text <- lift (text r) ;;
                       Ret (respond 500
                              (Obj [("error", Str "OpenAI error");
                                    ("details", Str text)])))%prog
                 else (json <- lift (json_body r) ;;
                       reply <- lift (extract_reply json) ;;
                       Ret (respond 200 (Obj [("reply", reply); ("raw", json)])))%prog
             end)
       end)
    on_error.
Proof.
  intro H. unfold handler. rewrite H. reflexivity.
Qed.

(** With a well-formed message and a configured key the handler's first act
    is the one request to the provider. *)
Lemma handler_calls_provider (env : Env) (req : Request) (s k : string) :
  method req = "POST" -> message_of req = Str s -> s <> "" ->
  OPENAI_API_KEY env = Some k -> k <> "" ->
  exists cont,
    handler env req = Call (completion_call k (Str s)) cont /\
    forall r, cont (inr r) =
      try_catch
        (if negb (ok r)
         then (text <- lift (text r) ;;
               Ret (respond 500
                      (Obj [("error", Str "OpenAI error"); ("details", Str text)])))%prog
         else (json <- lift (json_body r) ;;
               reply <- lift (extract_reply json) ;;
               Ret (respond 200 (Obj [("reply", reply); ("raw", json)])))%prog)
        on_error.
Proof.
  intros Hm Hmsg Hs Hk Hk'.
  rewrite (handler_post env req Hm). cbv zeta. rewrite Hmsg, Hk.
  assert (Ht : negb (truthy (Str s)) || negb (is_string (Str s)) = false).
  { cbn. apply String.eqb_neq in Hs. rewrite Hs. reflexivity. }
  rewrite Ht.
  destruct k as [|a k']; [congruence|].
  eexists; split; [reflexivity|].
  intro r. reflexivity.
Qed.

(** When the parsed body is an actual value (not [null]) the reply is the
    lenient choice among the two fields. *)
Lemma extract_reply_lenient (json : value) :
  json <> Null -> json <> Undefined ->
  extract_reply json = inr (or (content_field json) (or (text_field json) (Str ""))).
Proof.
  intros Hn Hu. unfold extract_reply, content_field, text_field, or.
  destruct json; try congruence; cbn [member opt_member];
    match goal with
    | |- context [truthy ?x] => destruct (truthy x); reflexivity
    end.
Qed.

End AiFacts.

Section AiClaims.
Import Js Ai.

(** C9. A request to the completion proxy whose method is not POST gets
    status 405 with body [{error:'Method not allowed'}]; the handler returns
    at once, whatever the body and the environment hold, and calls nobody. *)
Theorem C9_method_guard (env : Env) (req : Request) :
  method req <> "POST" ->
  handler env req = Ret (respond 405 (error_body (Str "Method not allowed")))
  /\ forall provider : Provider, calls serve (handler env req) provider = [].
Proof.
  intro H. apply String.eqb_neq in H.
  assert (E : handler env req
              = Ret (respond 405 (error_body (Str "Method not allowed")))).
  { unfold handler. rewrite H. reflexivity. }
  split; [exact E|]. intro provider. rewrite E. reflexivity.
Qed.

Lemma C9_method_guard_witness :
  handler {| OPENAI_API_KEY := Some "sk-test" |}
          {| method := "GET"; body := Obj [("message", Str "hello")] |}
  = Ret (respond 405 (error_body (Str "Method not allowed")))
  /\ forall provider : Provider,
      calls serve
        (handler {| OPENAI_API_KEY := Some "sk-test" |}
                 {| method := "GET"; body := Obj [("message", Str "hello")] |})
        provider = [].
Proof.
  apply (C9_method_guard {| OPENAI_API_KEY := Some "sk-test" |}
           {| method := "GET"; body := Obj [("message", Str "hello")] |}).
  cbn. discriminate.
Defined.

(** C5. On a POST to the completion proxy: a message that is absent, empty
    or not a string yields 400; with a valid message, a missing provider
    credential yields 500 "OpenAI key not set in environment variables"
    without any call; a provider answer that is not ok yields 500
    "OpenAI error" with the provider's raw body under [details]; and the two
    500 bodies differ. *)
Theorem C5_proxy_errors (env : Env) (req : Request) :
  method req = "POST" ->
  ((message_of req = Undefined \/ message_of req = Str ""
    \/ is_string (message_of req) = false) ->
   handler env req = Ret (respond 400 (error_body (Str "Invalid message"))))
  /\
  (forall s, message_of req = Str s -> s <> "" ->
     ((OPENAI_API_KEY env = None \/ OPENAI_API_KEY env = Some "") ->
      handler env req
      = Ret (respond 500
               (error_body (Str "OpenAI key not set in environment variables"))))
     /\
     (forall k r raw,
        OPENAI_API_KEY env = Some k -> k <> "" ->
        ok r = false -> text r = inr raw ->
        runs (handler env req)
          [Called (completion_call k (Str s)) (inr r)]
          (inr (respond 500 (Obj [("error", Str "OpenAI error");
                                  ("details", Str raw)])))
        /\ get (Obj [("error", Str "OpenAI error"); ("details", Str raw)]) "details"
           = Str raw
        /\ respond 500 (Obj [("error", Str "OpenAI error"); ("details", Str raw)])
           <> respond 500
                (error_body (Str "OpenAI key not set in environment variables")))).
Proof.
  intro Hm. split.
  - intro Hbad. rewrite (handler_post env req Hm). cbv zeta.
    assert (E : negb (truthy (message_of req))
                || negb (is_string (message_of req)) = true).
    { destruct Hbad as [H | [H | H]]; rewrite H; try reflexivity.
      apply orb_true_r. }
    rewrite E. reflexivity.
  - intros s Hmsg Hs. split.
    + intro Hkey. rewrite (handler_post env req Hm). cbv zeta. rewrite Hmsg.
      assert (Ht : negb (truthy (Str s)) || negb (is_string (Str s)) = false).
      { cbn. apply String.eqb_neq in Hs. rewrite Hs. reflexivity. }
      rewrite Ht. destruct Hkey as [H | H]; rewrite H; reflexivity.
    + intros k r raw Hk Hk' Hok Htext.
      destruct (handler_calls_provider env req s k Hm Hmsg Hs Hk Hk')
        as [cont [Hh Hcont]].
      split; [|split].
      * unfold runs. rewrite Hh. apply reaches_Call. rewrite Hcont.
        rewrite Hok, Htext. cbn. apply reaches_here.
      * reflexivity.
      * discriminate.
Qed.

Lemma C5_proxy_errors_witness :
  handler {| OPENAI_API_KEY := None |} {| method := "POST"; body := Obj [("message", Str "")] |}
  = Ret (respond 400 (error_body (Str "Invalid message")))
  /\
  handler {| OPENAI_API_KEY := None |}
          {| method := "POST"; body := Obj [("message", Str "hello")] |}
  = Ret (respond 500 (error_body (Str "OpenAI key not set in environment variables")))
  /\
  runs (handler {| OPENAI_API_KEY := Some "sk-test" |}
                {| method := "POST"; body := Obj [("message", Str "hello")] |})
       [Called (completion_call "sk-test" (Str "hello"))
               (inr {| ok := false; text := inr "quota exceeded";
                       json_body := inl (mkExn "SyntaxError" "Unexpected token") |})]
       (inr (respond 500 (Obj [("error", Str "OpenAI error");
                               ("details", Str "quota exceeded")]))).
Proof.
  split; [|split].
  - apply (C5_proxy_errors {| OPENAI_API_KEY := None |}
             {| method := "POST"; body := Obj [("message", Str "")] |});
      [reflexivity | right; left; reflexivity].
  - apply (C5_proxy_errors {| OPENAI_API_KEY := None |}
             {| method := "POST"; body := Obj [("message", Str "hello")] |}
             eq_refl) with (s := "hello");
      [reflexivity | discriminate | left; reflexivity].
  - apply (C5_proxy_errors {| OPENAI_API_KEY := Some "sk-test" |}
             {| method := "POST"; body := Obj [("message", Str "hello")] |}
             eq_refl) with (s := "hello") (k := "sk-test");
      [reflexivity | discriminate | reflexivity | discriminate
       | reflexivity | reflexivity].
Defined.

(** C6, as the code has it. For every provider response that is ok and whose
    parsed body is not [null], the handler answers 200 and the reply is
    [choices[0].message.content] when that value is truthy, otherwise
    [choices[0].text] when that is truthy, otherwise the empty string. *)
Theorem C6_reply_extraction (env : Env) (req : Request) (s k : string)
    (r : FetchResponse) (parsed : value) :
  method req = "POST" -> message_of req = Str s -> s <> "" ->
  OPENAI_API_KEY env = Some k -> k <> "" ->
  ok r = true -> json_body r = inr parsed ->
  parsed <> Null -> parsed <> Undefined ->
  runs (handler env req)
    [Called (completion_call k (Str s)) (inr r)]
    (inr (respond 200
            (Obj [("reply", or (content_field parsed) (or (text_field parsed) (Str "")));
                  ("raw", parsed)]))).
Proof.
  intros Hm Hmsg Hs Hk Hk' Hok Hjson Hn Hu.
  destruct (handler_calls_provider env req s k Hm Hmsg Hs Hk Hk')
    as [cont [Hh Hcont]].
  unfold runs. rewrite Hh. apply reaches_Call. rewrite Hcont.
  rewrite Hok, Hjson. cbn [negb lift bind try_catch].
  rewrite (extract_reply_lenient parsed Hn Hu). cbn. apply reaches_here.
Qed.

Lemma C6_reply_extraction_witness :
  runs (handler {| OPENAI_API_KEY := Some "sk-test" |}
                {| method := "POST"; body := Obj [("message", Str "hello")] |})
    [Called (completion_call "sk-test" (Str "hello"))
       (inr {| ok := true; text := inr "";
               json_body :=
                 inr (Obj [("choices",
                            Arr [Obj [("message", Obj [("content", Str "hi")])]])]) |})]
    (inr (respond 200
            (Obj [("reply", Str "hi");
                  ("raw", Obj [("choices",
                                Arr [Obj [("message", Obj [("content", Str "hi")])]])])]))).
Proof.
  apply (C6_reply_extraction {| OPENAI_API_KEY := Some "sk-test" |}
           {| method := "POST"; body := Obj [("message", Str "hello")] |}
           "hello" "sk-test"
           {| ok := true; text := inr "";
              json_body :=
                inr (Obj [("choices",
                           Arr [Obj [("message", Obj [("content", Str "hi")])]])]) |}
           (Obj [("choices", Arr [Obj [("message", Obj [("content", Str "hi")])]])]));
    try reflexivity; discriminate.
Defined.

(** C6 as stated fails: a reply whose [content] is present but empty, next to
    a non-empty [text], is answered with the [text], not with the content. *)
Lemma C6_counterexample :
  let parsed :=
    Obj [("choices",
          Arr [Obj [("message", Obj [("content", Str "")]); ("text", Str "x")]])] in
  let provider : Provider :=
    fun _ => inr {| ok := true; text := inr ""; json_body := inr parsed |} in
  content_field parsed = Str ""
  /\ fst (exec serve
            (handler {| OPENAI_API_KEY := Some "sk-test" |}
                     {| method := "POST"; body := Obj [("message", Str "hello")] |})
            provider)
     = inr (respond 200 (Obj [("reply", Str "x"); ("raw", parsed)]))
  /\ Str "x" <> content_field parsed.
Proof.
  cbv zeta. split; [reflexivity | split; [reflexivity | discriminate]].
Qed.

(** The unguarded [json.choices] of the first operand: a provider body that
    parses to [null] ends in the catch block, with a 500. *)
Lemma null_body_is_a_failure :
  fst (exec serve
         (handler {| OPENAI_API_KEY := Some "sk-test" |}
                  {| method := "POST"; body := Obj [("message", Str "hello")] |})
         (fun _ => inr {| ok := true; text := inr "null"; json_body := inr Null |}))
  = inr (respond 500
           (error_body (Str "Cannot read properties of null (reading 'choices')"))).
Proof. reflexivity. Qed.

End AiClaims.

(* ===================================================================== *)
(** ** Strings *)
(* ===================================================================== *)

Section StringFacts.
Import Js.
Local Open Scope string_scope.

Lemma startsWith_app (p s : string) : startsWith p (p ++ s) = true.
Proof.
  induction p as [|a p IH]; cbn; [reflexivity|].
  rewrite Ascii.eqb_refl. exact IH.
Qed.

Lemma startsWith_inv (p s : string) :
  startsWith p s = true -> exists rest, s = p ++ rest.
Proof.
  revert s. induction p as [|a p IH]; intros s H; cbn in H.
  - exists s. reflexivity.
  - destruct s as [|b s]; [discriminate|].
    destruct (Ascii.eqb a b) eqn:E; [|discriminate].
    apply Ascii.eqb_eq in E. subst b.
    destruct (IH s H) as [rest ->]. exists rest. reflexivity.
Qed.

Lemma drop_app (p s : string) : drop (String.length p) (p ++ s) = s.
Proof. induction p as [|a p IH]; cbn; [reflexivity | exact IH]. Qed.

Lemma append_assoc (a b c : string) : (a ++ b) ++ c = a ++ (b ++ c).
Proof. induction a as [|x a IH]; cbn; [reflexivity | now rewrite IH]. Qed.

(** A pattern that does not occur leaves the string as it is. *)
Lemma replace_absent (pat rep s : string) :
  includes pat s = false -> replace pat rep s = s.
Proof.
  induction s as [|c s IH]; intro H.
  - cbn in H. apply orb_false_iff in H. destruct H as [H _].
    cbn. rewrite H. reflexivity.
  - cbn [includes] in H. apply orb_false_iff in H. destruct H as [H1 H2].
    cbn [replace]. rewrite H1. now rewrite (IH H2).
Qed.

(** Only the first occurrence is replaced: what follows it is kept
    untouched, further occurrences included. *)
Lemma replace_first (pat rep pre post : string) :
  (forall i, i < String.length pre ->
             startsWith pat (drop i (pre ++ pat ++ post)) = false) ->
  replace pat rep (pre ++ pat ++ post) = pre ++ rep ++ post.
Proof.
  induction pre as [|c pre IH]; intro Hfirst.
  - cbn [append]. destruct (pat ++ post) eqn:E.
    + cbn. pose proof (startsWith_app pat post) as Hs. rewrite E in Hs.
      rewrite Hs. pose proof (drop_app pat post) as Hd. rewrite E in Hd.
      now rewrite Hd.
    + cbn [replace]. pose proof (startsWith_app pat post) as Hs. rewrite E in Hs.
      rewrite Hs. pose proof (drop_app pat post) as Hd. rewrite E in Hd.
      now rewrite Hd.
  - cbn [append replace].
    pose proof (Hfirst 0 ltac:(cbn; lia)) as H0. cbn [drop append] in H0.
    rewrite H0. f_equal. apply IH.
    intros i Hi. apply (Hfirst (S i)). cbn. lia.
Qed.

End StringFacts.

(* ===================================================================== *)
(** ** The router *)
(* ===================================================================== *)

Section RouterFacts.
Import Js Supabase.
Local Open Scope string_scope.

(** Rewrites a prefix test that holds into the shape of the path. *)
Ltac expose_path H :=
  let rest := fresh "rest" in
  let E := fresh "E" in
  destruct (startsWith_inv _ _ H) as [rest E]; rewrite E.

Lemma route_sync_user (req : Request) :
  method req = "POST" ->
  startsWith "supabase/data/sync_user" (strip_api (url req)) = true ->
  handler req = try_catch (sync_user req) on_error.
Proof.
  intros Hm Hp. unfold handler. cbv zeta. rewrite Hm, Hp. reflexivity.
Qed.

Lemma route_me (req : Request) :
  method req = "GET" ->
  startsWith "supabase/data/me" (strip_api (url req)) = true ->
  handler req = try_catch (me req) on_error.
Proof.
  intros Hm Hp. unfold handler. cbv zeta. rewrite Hm.
  expose_path Hp. reflexivity.
Qed.

Lemma route_admin_update (req : Request) :
  method req = "POST" ->
  startsWith "supabase/admin/update" (strip_api (url req)) = true ->
  handler req = try_catch (admin_update req) on_error.
Proof.
  intros Hm Hp. unfold handler. cbv zeta. rewrite Hm.
  expose_path Hp. reflexivity.
Qed.

Lemma route_site (req : Request) :
  method req = "GET" ->
  startsWith "supabase/data/site" (strip_api (url req)) = true ->
  handler req = try_catch data_site on_error.
Proof.
  intros Hm Hp. unfold handler. cbv zeta. rewrite Hm, Hp. reflexivity.
Qed.

(** The chain of guards is the table read from the top: the first entry
    that matches decides. *)
Lemma handler_dispatch (req : Request) :
  handler req = try_catch (dispatch req) on_error.
Proof.
  unfold handler, dispatch, route_table, entry_matches, route_matches.
  cbv zeta. cbn [find fst snd].
  repeat match goal with
         | |- context [if ?b then _ else _] => destruct b
         end; reflexivity.
Qed.

(** The authenticated routes, one by one. *)
Lemma authenticated_route_cases (req : Request) :
  on_authenticated_route req = true ->
  handler req = try_catch (sync_user req) on_error
  \/ handler req = try_catch (me req) on_error
  \/ handler req = try_catch (admin_update req) on_error.
Proof.
  unfold on_authenticated_route, authenticated_routes, route_matches.
  cbn [existsb fst snd]. rewrite orb_false_r.
  intro H. apply orb_true_iff in H. destruct H as [H | H];
    [| apply orb_true_iff in H; destruct H as [H | H]];
    apply andb_true_iff in H; destruct H as [Hm Hp];
    apply String.eqb_eq in Hm.
  - left. now apply route_sync_user.
  - right; left. now apply route_me.
  - right; right. now apply route_admin_update.
Qed.

(** On an authenticated route a token that is not empty goes straight to
    identity resolution. *)
Lemma token_goes_to_getUser (req : Request) (token : string) :
  on_authenticated_route req = true ->
  bearer_token req = Some token ->
  exists k, handler req = Call (GetUser token) k.
Proof.
  intros Hr Ht.
  destruct (authenticated_route_cases req Hr) as [E | [E | E]]; rewrite E;
    [unfold sync_user | unfold me | unfold admin_update];
    rewrite Ht; unfold await; cbn [try_catch]; eexists; reflexivity.
Qed.

Lemma carries_no_token_iff (req : Request) :
  carries_no_token req <-> bearer_token req = None.
Proof.
  unfold carries_no_token, bearer_token. split.
  - intros [H | [H | H]]; rewrite H; reflexivity.
  - destruct (authorization req) as [h|]; [|intros _; now left].
    cbv zeta. destruct (replace "Bearer " "" h =? "") eqn:E; [|discriminate].
    intros _. apply String.eqb_eq in E.
    destruct h as [|c h]; [right; left; reflexivity|].
    cbn [replace] in E.
    destruct (startsWith "Bearer " (String c h)) eqn:S.
    + destruct (startsWith_inv _ _ S) as [rest Hrest].
      rewrite Hrest in E. cbn in E. subst rest.
      right; right. rewrite Hrest. reflexivity.
    + discriminate.
Qed.

End RouterFacts.

Section RouterClaims.
Import Js Supabase.
Local Open Scope string_scope.

(** C8. A request whose method and normalised path match no entry of the
    route table is answered 404 [{error:'Not found'}], whatever its
    Authorization header, without any call to the data service. *)
Theorem C8_unmatched_is_404 (req : Request) :
  matched req = false ->
  handler req = Ret (respond 404 (error_body (Str "Not found")))
  /\ forall w, run req w = (inr (respond 404 (error_body (Str "Not found"))), w).
Proof.
  unfold matched, route_table, entry_matches, route_matches.
  cbn [existsb fst snd]. intro H.
  repeat (apply orb_false_iff in H; let H' := fresh "R" in destruct H as [H' H]).
  assert (E : handler req = Ret (respond 404 (error_body (Str "Not found")))).
  { unfold handler. cbv zeta. rewrite R, R0, R1, R2, R3, R4. reflexivity. }
  split; [exact E|]. intro w. unfold run. rewrite E. reflexivity.
Qed.

Lemma C8_unmatched_is_404_witness :
  handler {| method := "DELETE"; url := "/api/supabase/admin/update";
             authorization := Some "Bearer ann-token"; body := Null |}
  = Ret (respond 404 (error_body (Str "Not found")))
  /\ forall w,
      run {| method := "DELETE"; url := "/api/supabase/admin/update";
             authorization := Some "Bearer ann-token"; body := Null |} w
      = (inr (respond 404 (error_body (Str "Not found"))), w).
Proof.
  apply (C8_unmatched_is_404
           {| method := "DELETE"; url := "/api/supabase/admin/update";
              authorization := Some "Bearer ann-token"; body := Null |}).
  reflexivity.
Defined.

(** C4. A request to a write route that carries no bearer token is rejected
    before anything else happens: [sync_user] answers 400 "Missing token",
    [admin/update] answers 401 "Missing token", the handler makes no call and
    the world of the data service, its store included, is what it was. *)
Theorem C4_no_token_no_write (req : Request) :
  carries_no_token req ->
  method req = "POST" ->
  (startsWith "supabase/data/sync_user" (strip_api (url req)) = true ->
   handler req = Ret (respond 400 (error_body (Str "Missing token")))
   /\ forall w, run req w = (inr (respond 400 (error_body (Str "Missing token"))), w))
  /\
  (startsWith "supabase/admin/update" (strip_api (url req)) = true ->
   handler req = Ret (respond 401 (error_body (Str "Missing token")))
   /\ forall w, run req w = (inr (respond 401 (error_body (Str "Missing token"))), w)).
Proof.
  intros Hno Hm. apply carries_no_token_iff in Hno. split; intro Hp.
  - assert (E : handler req = Ret (respond 400 (error_body (Str "Missing token")))).
    { rewrite (route_sync_user req Hm Hp). unfold sync_user. rewrite Hno. reflexivity. }
    split; [exact E|]. intro w. unfold run. rewrite E. reflexivity.
  - assert (E : handler req = Ret (respond 401 (error_body (Str "Missing token")))).
    { rewrite (route_admin_update req Hm Hp). unfold admin_update. rewrite Hno.
      reflexivity. }
    split; [exact E|]. intro w. unfold run. rewrite E. reflexivity.
Qed.

Lemma C4_no_token_no_write_witness :
  (forall w,
     run {| method := "POST"; url := "/api/supabase/data/sync_user";
            authorization := None; body := Obj [("email", Str "ann@example.org")] |} w
     = (inr (respond 400 (error_body (Str "Missing token"))), w))
  /\
  (forall w,
     run {| method := "POST"; url := "/api/supabase/admin/update";
            authorization := Some "Bearer ";
            body := Obj [("type", Str "tutorials"); ("payload", Arr [])] |} w
     = (inr (respond 401 (error_body (Str "Missing token"))), w)).
Proof.
  split.
  - apply (C4_no_token_no_write
             {| method := "POST"; url := "/api/supabase/data/sync_user";
                authorization := None;
                body := Obj [("email", Str "ann@example.org")] |});
      [left; reflexivity | reflexivity | reflexivity].
  - apply (C4_no_token_no_write
             {| method := "POST"; url := "/api/supabase/admin/update";
                authorization := Some "Bearer ";
                body := Obj [("type", Str "tutorials"); ("payload", Arr [])] |});
      [right; right; reflexivity | reflexivity | reflexivity].
Defined.

(** C7. A GET on the site-settings route, when the settings table holds no
    row and the service carries the query out, is answered 200 with the
    default [{title:'Gorilla Hub', about:'Welcome'}]; the store is not
    touched. *)
Theorem C7_site_default (req : Request) (w : World) :
  method req = "GET" ->
  startsWith "supabase/data/site" (strip_api (url req)) = true ->
  settings_rows (store w) = [] ->
  hd None (faults w) = None ->
  fst (run req w)
  = inr (respond 200 (Obj [("title", Str "Gorilla Hub"); ("about", Str "Welcome")]))
  /\ store (snd (run req w)) = store w.
Proof.
  intros Hm Hp Hs Hf. unfold run. rewrite (route_site req Hm Hp).
  unfold data_site, await. cbn [try_catch exec]. unfold serve.
  destruct (faults w) as [|[r|] fs]; cbn in Hf; try discriminate;
    cbn [perform rows]; rewrite Hs; cbn; split; reflexivity.
Qed.

Lemma C7_site_default_witness :
  fst (run (sample_request "GET" "/api/supabase/data/site" Undefined)
           (sample_world "user" []))
  = inr (respond 200 (Obj [("title", Str "Gorilla Hub"); ("about", Str "Welcome")]))
  /\ store (snd (run (sample_request "GET" "/api/supabase/data/site" Undefined)
                     (sample_world "user" [])))
     = store (sample_world "user" []).
Proof.
  apply (C7_site_default (sample_request "GET" "/api/supabase/data/site" Undefined)
           (sample_world "user" [])); reflexivity.
Defined.

(** C10. On every route that resolves a token, the token is the
    Authorization header with only the first literal ['Bearer '] taken out:
    what stands before and after that occurrence is kept, and a non-empty
    header without the literal (a lowercase scheme, a bare token) goes to
    identity resolution as it is; the handler does not reject it itself. *)
Theorem C10_token_extraction (req : Request) (h : string) :
  authorization req = Some h ->
  on_authenticated_route req = true ->
  (forall pre post,
     h = pre ++ "Bearer " ++ post ->
     (forall i : nat, i < String.length pre ->
                      startsWith "Bearer " (drop i h) = false) ->
     pre ++ post <> "" ->
     exists k, handler req = Call (GetUser (pre ++ post)) k)
  /\
  (includes "Bearer " h = false -> h <> "" ->
   exists k, handler req = Call (GetUser h) k).
Proof.
  intros Hh Hr. split.
  - intros pre post E Hfirst Hne.
    apply token_goes_to_getUser; [exact Hr|].
    unfold bearer_token. rewrite Hh. cbv zeta. subst h.
    rewrite (replace_first "Bearer " "" pre post Hfirst). cbn [append].
    apply String.eqb_neq in Hne. rewrite Hne. reflexivity.
  - intros Habs Hne.
    apply token_goes_to_getUser; [exact Hr|].
    unfold bearer_token. rewrite Hh. cbv zeta.
    rewrite (replace_absent "Bearer " "" h Habs).
    apply String.eqb_neq in Hne. rewrite Hne. reflexivity.
Qed.

Lemma C10_token_extraction_witness :
  (exists k,
     handler {| method := "GET"; url := "/api/supabase/data/me";
                authorization := Some "bearer abc"; body := Undefined |}
     = Call (GetUser "bearer abc") k)
  /\
  (exists k,
     handler {| method := "POST"; url := "/api/supabase/admin/update";
                authorization := Some "Bearer abc Bearer xyz"; body := Undefined |}
     = Call (GetUser "abc Bearer xyz") k).
Proof.
  split.
  - apply (C10_token_extraction
             {| method := "GET"; url := "/api/supabase/data/me";
                authorization := Some "bearer abc"; body := Undefined |}
             "bearer abc" eq_refl eq_refl);
      [reflexivity | discriminate].
  - apply (proj1 (C10_token_extraction
             {| method := "POST"; url := "/api/supabase/admin/update";
                authorization := Some "Bearer abc Bearer xyz"; body := Undefined |}
             "Bearer abc Bearer xyz" eq_refl eq_refl) "" "abc Bearer xyz");
      [reflexivity | intros i Hi; cbn in Hi; lia | discriminate].
Defined.

End RouterClaims.

(* ===================================================================== *)
(** ** The privileged route *)
(* ===================================================================== *)

Section Authorised.
Import Js Supabase.
Local Open Scope string_scope.

(** A POST on [admin/update] with a token the service resolves to a user,
    and a role lookup that comes back without error. *)
Variables (req : Request) (token : string) (session lookup : Result).
Hypothesis Hmethod : method req = "POST".
Hypothesis Hpath : startsWith "supabase/admin/update" (strip_api (url req)) = true.
Hypothesis Htoken : bearer_token req = Some token.
Hypothesis Hsession : truthy (error session) = false.
Hypothesis Huser : truthy (get (data session) "user") = true.
Hypothesis Hlookup : truthy (error lookup) = false.

(** Past the two exchanges the handler stands at the role check. *)
Lemma reaches_gate :
  reaches (handler req) (gate_trace token session lookup)
    (if privileged (effective_role (data lookup))
     then try_catch (perform_update req) on_error
     else Ret (respond 403 (error_body (Str "Insufficient privileges")))).
Proof.
  rewrite (route_admin_update req Hmethod Hpath).
  unfold admin_update, gate_trace. rewrite Htoken. unfold await.
  cbn [try_catch]. apply reaches_Call. rewrite Hsession.
  assert (Hm : member (data session) "user" = inr (get (data session) "user")).
  { destruct (data session); cbn in Huser; try discriminate; reflexivity. }
  rewrite Hm. cbn [lift bind]. rewrite Huser. cbn [negb try_catch].
  apply reaches_Call. rewrite Hlookup.
  destruct (privileged (effective_role (data lookup))); cbn [negb try_catch];
    apply reaches_here.
Qed.

(** What an accepted caller can get back is never the 403 of the role check. *)
Lemma perform_update_never_403 :
  all_returns (fun resp => status resp <> 403)
    (try_catch (perform_update req) on_error).
Proof.
  unfold perform_update. cbv zeta.
  repeat match goal with
         | |- context [if ?b then _ else _] => destruct b
         end;
    unfold update_site, replace_collection, await; cbn;
    try discriminate;
    intros [e | r]; cbn; try discriminate;
    repeat match goal with
           | |- context [if ?b then _ else _] => destruct b; cbn
           | |- context [match ?l with [] => _ | _ :: _ => _ end] => destruct l; cbn
           | |- forall _ : Reply, _ => intros [? | ?]; cbn
           end;
    try discriminate; try exact I.
Qed.

(** C3, as the code has it. On [admin/update], with a valid token and a role
    lookup that succeeds: a caller whose row has role 'user', or who has no
    row at all, is answered 403 "Insufficient privileges"; a caller whose row
    has role 'admin' or 'dev' passes the check, the handler goes on with the
    requested update, and nothing it then answers is a 403. *)
Theorem C3_role_gate :
  (data lookup = Null \/ opt_member (data lookup) "role" = Str "user" ->
   runs (handler req) (gate_trace token session lookup)
     (inr (respond 403 (error_body (Str "Insufficient privileges")))))
  /\
  (opt_member (data lookup) "role" = Str "admin"
   \/ opt_member (data lookup) "role" = Str "dev" ->
   reaches (handler req) (gate_trace token session lookup)
     (try_catch (perform_update req) on_error)
   /\ forall t resp,
        runs (handler req) (gate_trace token session lookup ++ t) (inr resp) ->
        status resp <> 403).
Proof.
  pose proof reaches_gate as G. split.
  - intro H.
    assert (E : privileged (effective_role (data lookup)) = false).
    { unfold effective_role. destruct H as [H | H]; rewrite H; reflexivity. }
    rewrite E in G. exact G.
  - intro H.
    assert (E : privileged (effective_role (data lookup)) = true).
    { unfold effective_role. destruct H as [H | H]; rewrite H; reflexivity. }
    rewrite E in G. split; [exact G|].
    intros t resp R.
    apply (all_returns_runs (fun resp => status resp <> 403)
             (try_catch (perform_update req) on_error) t resp).
    + apply perform_update_never_403.
    + exact (reaches_split _ _ _ _ _ G R).
Qed.

(** C1, as the code has it. In the [tutorials] and [cosmetics] branches,
    when the delete comes back without error and the bulk insert comes back
    with one, the answer is 500 with the body [{error: e.message || e}] of
    the insert's error [e]; that body has no [partial] field. *)
Theorem C1_insert_failure_report (t : Table) (first : value) (others : list value)
    (del ins : Result) :
  privileged (effective_role (data lookup)) = true ->
  (t = tutorials /\ get (or (body req) (Obj [])) "type" = Str "tutorials")
  \/ (t = cosmetics /\ get (or (body req) (Obj [])) "type" = Str "cosmetics") ->
  get (or (body req) (Obj [])) "payload" = Arr (first :: others) ->
  truthy (error del) = false ->
  truthy (error ins) = true ->
  runs (handler req)
    (gate_trace token session lookup
       ++ [Called (Delete t) (inr del);
           Called (Insert t (first :: others)) (inr ins)])
    (inr (respond 500 (error_body (or (get (error ins) "message") (error ins)))))
  /\ get (error_body (or (get (error ins) "message") (error ins))) "partial"
     = Undefined.
Proof.
  intros Hpriv Htype Hpayload Hdel Hins. split; [|reflexivity].
  pose proof reaches_gate as G. rewrite Hpriv in G.
  unfold runs. eapply reaches_app; [exact G|].
  unfold perform_update. cbv zeta. rewrite Hpayload.
  destruct Htype as [[-> ->] | [-> ->]]; cbn;
    apply reaches_Call; cbn; apply reaches_Call; cbn;
    rewrite Hins; cbn; apply reaches_here.
Qed.

End Authorised.

(* ===================================================================== *)
(** ** Worked cases on the sample store *)
(* ===================================================================== *)

Section WorkedCases.
Import Js Supabase.
Local Open Scope string_scope.

Lemma C3_role_gate_witness :
  runs (handler replace_tutorials)
    (gate_trace "ann-token" ann_identity (result (Obj [("role", Str "user")]) Null))
    (inr (respond 403 (error_body (Str "Insufficient privileges"))))
  /\
  reaches (handler replace_tutorials)
    (gate_trace "ann-token" ann_identity (result (Obj [("role", Str "dev")]) Null))
    (try_catch (perform_update replace_tutorials) on_error).
Proof.
  split.
  - apply (C3_role_gate replace_tutorials "ann-token" ann_identity
             (result (Obj [("role", Str "user")]) Null)
             eq_refl eq_refl eq_refl eq_refl eq_refl eq_refl).
    right. reflexivity.
  - apply (C3_role_gate replace_tutorials "ann-token" ann_identity
             (result (Obj [("role", Str "dev")]) Null)
             eq_refl eq_refl eq_refl eq_refl eq_refl eq_refl).
    right. reflexivity.
Defined.

(** C3 as stated fails on the other write route: [sync_user] has no role
    gate, and a caller whose stored role is 'user' is answered 200. *)
Lemma C3_counterexample :
  users_rows (store (sample_world "user" [])) = [ann_row "user"]
  /\ fst (run sync_ann (sample_world "user" [])) = inr (respond 200 ok_true).
Proof. split; reflexivity. Qed.

Lemma C1_insert_failure_report_witness :
  runs (handler replace_tutorials)
    (gate_trace "ann-token" ann_identity (result (Obj [("role", Str "admin")]) Null)
       ++ [Called (Delete tutorials) (inr (result Null Null));
           Called (Insert tutorials [Obj [("title", Str "A")]])
                  (inr (result Null (Obj [("message", Str "insert failed")])))])
    (inr (respond 500 (error_body (Str "insert failed")))).
Proof.
  apply (C1_insert_failure_report replace_tutorials "ann-token" ann_identity
           (result (Obj [("role", Str "admin")]) Null)
           eq_refl eq_refl eq_refl eq_refl eq_refl eq_refl
           tutorials (Obj [("title", Str "A")]) []
           (result Null Null)
           (result Null (Obj [("message", Str "insert failed")])));
    try reflexivity.
  left. split; reflexivity.
Defined.

(** C1 as stated fails: the answer after "delete done, insert failed" is the
    very answer after "delete failed, insert failed", though the collection
    is empty in the first case and untouched in the second. *)
Lemma C1_counterexample :
  let delete_done := sample_world "admin" [None; None; failure "insert failed"] in
  let delete_failed :=
    sample_world "admin" [None; failure "delete failed"; failure "insert failed"] in
  fst (run replace_tutorials delete_done)
  = inr (respond 500 (error_body (Str "insert failed")))
  /\ get (error_body (Str "insert failed")) "partial" = Undefined
  /\ fst (run replace_tutorials delete_failed) = fst (run replace_tutorials delete_done)
  /\ tutorials_rows (store (snd (run replace_tutorials delete_done))) = []
  /\ tutorials_rows (store (snd (run replace_tutorials delete_failed)))
     = [Obj [("title", Str "Old")]].
Proof. cbv zeta. repeat split; reflexivity. Qed.

(** C2 at its failing input. Ann's row carries the role 'admin', set by an
    administrator after her first sync. Her next [sync_user] succeeds, the
    table still holds one row for her, and that row's role is back to
    'user' (its name to the local part of her email). *)
Theorem C2_sync_resets_role :
  users_rows (store (sample_world "admin" [])) = [ann_row "admin"]
  /\ fst (run sync_ann (sample_world "admin" [])) = inr (respond 200 ok_true)
  /\ users_rows (store (snd (run sync_ann (sample_world "admin" []))))
     = [Obj [("id", Str "u1"); ("email", Str "ann@example.org");
             ("role", Str "user"); ("name", Str "ann")]].
Proof. repeat split; reflexivity. Qed.

(** The same call with [ignoreDuplicates] set would have kept the row. *)
Lemma upsert_ignoring_duplicates_keeps_role :
  upsert_row true
    (Obj [("id", Str "u1"); ("email", Str "ann@example.org");
          ("role", Str "user"); ("name", Str "ann")])
    [ann_row "admin"]
  = [ann_row "admin"].
Proof. reflexivity. Qed.

End WorkedCases.

(* ===================================================================== *)
(** ** The profile row under repeated syncs *)
(* ===================================================================== *)

Section ProfileRow.
Import Js Supabase.
Local Open Scope string_scope.

Lemma lookup_set_prop (k k' : string) (v : value) (ps : list (string * value)) :
  lookup k (set_prop k' v ps) = if k' =? k then v else lookup k ps.
Proof.
  induction ps as [|[k0 v0] ps IH]; cbn; [reflexivity|].
  destruct (k0 =? k') eqn:E0; cbn.
  - apply String.eqb_eq in E0. subst k0.
    destruct (k' =? k); reflexivity.
  - rewrite IH. destruct (k0 =? k) eqn:E1; [|reflexivity].
    apply String.eqb_eq in E1. subst k0. rewrite String.eqb_sym, E0. reflexivity.
Qed.

(** The row [sync_user] sends always has the shape of the object literal. *)
Lemma sync_row_shape (user email row : value) :
  sync_row user email = inr row ->
  exists name,
    row = Obj [("id", get user "id");
               ("email", or (or (get user "email") email) (Str ""));
               ("role", Str "user");
               ("name", name)].
Proof.
  unfold sync_row.
  destruct (if truthy (opt_member (get user "user_metadata") "full_name")
            then inr (opt_member (get user "user_metadata") "full_name")
            else local_part (get user "email")) as [e | name];
    [discriminate|].
  intro H. injection H as <-. exists name. reflexivity.
Qed.

Variables (uid : string) (email name : value).

Lemma sent_key : get (sent_row uid email name) "id" = Str uid.
Proof. unfold sent_row. destruct email, name; reflexivity. Qed.

Lemma sent_role : get (sent_row uid email name) "role" = Str "user".
Proof. unfold sent_row. destruct email, name; reflexivity. Qed.

(** Merged into a stored row, the columns sent win: the key stays and the
    role becomes 'user', whatever the row held. *)
Lemma merged_columns (ps : list (string * value)) :
  lookup "id" (assign ps (spread (sent_row uid email name))) = Str uid
  /\ lookup "role" (assign ps (spread (sent_row uid email name))) = Str "user".
Proof.
  unfold sent_row.
  destruct email, name;
    cbn [wire stringify_props filter snd spread assign fold_left fst];
    rewrite !lookup_set_prop; split; reflexivity.
Qed.

(** After the upsert of the handler, a table with at most one row for the
    identity holds exactly one, and its role is 'user'. *)
Lemma upsert_resets_role (rs : list value) :
  length (filter (has_id (Str uid)) rs) <= 1 ->
  exists r,
    filter (has_id (Str uid)) (upsert_row false (sent_row uid email name) rs) = [r]
    /\ get r "role" = Str "user".
Proof.
  assert (Hsent : has_id (Str uid) (sent_row uid email name) = true).
  { unfold has_id. rewrite sent_key. cbn. apply String.eqb_refl. }
  induction rs as [|r rs IH]; intro Hone.
  - exists (sent_row uid email name). cbn [upsert_row filter]. rewrite Hsent.
    split; [reflexivity | apply sent_role].
  - cbn [upsert_row]. rewrite sent_key.
    destruct (has_id (Str uid) r) eqn:Hr.
    + cbn [filter] in Hone. rewrite Hr in Hone. cbn in Hone.
      assert (Hnone : filter (has_id (Str uid)) rs = []).
      { destruct (filter (has_id (Str uid)) rs); [reflexivity | cbn in Hone; lia]. }
      destruct (merged_columns (spread r)) as [Hid Hrole].
      exists (Obj (assign (spread r) (spread (sent_row uid email name)))).
      cbn [filter]. unfold has_id at 1. cbn [get]. rewrite Hid. cbn [same_key].
      rewrite String.eqb_refl, Hnone. split; [reflexivity | exact Hrole].
    + cbn [filter] in Hone |- *. rewrite Hr in Hone |- *. exact (IH Hone).
Qed.

End ProfileRow.

Section SyncFacts.
Import Js Supabase.
Local Open Scope string_scope.

(** Every successful [sync_user] of an identity that has at most one profile
    row leaves exactly one, with role 'user': a role stored before the call
    does not survive it. *)
Lemma sync_user_resets_role (req : Request) (w : World) (token uid : string)
    (session : Result) (user row : value) :
  method req = "POST" ->
  startsWith "supabase/data/sync_user" (strip_api (url req)) = true ->
  bearer_token req = Some token ->
  sessions w token = inr session ->
  truthy (error session) = false ->
  get (data session) "user" = user -> truthy user = true ->
  get user "id" = Str uid ->
  sync_row user (get (or (body req) (Obj [])) "email") = inr row ->
  hd None (faults w) = None ->
  length (filter (has_id (Str uid)) (users_rows (store w))) <= 1 ->
  fst (run req w) = inr (respond 200 ok_true)
  /\ exists r,
       filter (has_id (Str uid)) (users_rows (store (snd (run req w)))) = [r]
       /\ get r "role" = Str "user".
Proof.
  intros Hm Hp Ht Hs Herr Hu Htruthy Hid Hrow Hf Hone.
  destruct (sync_row_shape _ _ _ Hrow) as [name Hshape].
  rewrite Hid in Hshape.
  destruct (upsert_resets_role uid
              (or (or (get user "email") (get (or (body req) (Obj [])) "email"))
                  (Str ""))
              name (users_rows (store w)) Hone) as [r [Hr Hrole]].
  unfold sent_row in Hr. rewrite <- Hshape in Hr.
  assert (Hmem : member (data session) "user" = inr user).
  { subst user. destruct (data session); cbn in Htruthy; try discriminate;
      reflexivity. }
  unfold run. rewrite (route_sync_user req Hm Hp).
  unfold sync_user. rewrite Ht. unfold await. cbn [try_catch exec serve].
  rewrite Hs. cbn [try_catch]. rewrite Herr, Hmem. cbn [lift bind].
  rewrite Htruthy. cbn [negb]. rewrite Hrow. cbn [lift bind try_catch exec].
  unfold serve.
  destruct (faults w) as [|[x|] fs]; cbn in Hf; try discriminate;
    cbn [perform rows set_rows fst snd store users_rows exec try_catch error
         truthy];
    (split; [reflexivity | exists r; split; [exact Hr | exact Hrole]]).
Qed.

(** No call changes what the service answers for a token, and a service
    without pending faults stays so. *)
Lemma exec_keeps_sessions {A} (p : P A) (w : World) :
  sessions (snd (exec serve p w)) = sessions w
  /\ (faults w = [] -> faults (snd (exec serve p w)) = []).
Proof.
  revert w. induction p as [a | e | tag e k IH | c k IH]; intro w;
    cbn [exec]; try (split; [reflexivity | intro H; exact H]).
  - apply IH.
  - destruct (serve c w) as [r w'] eqn:E.
    assert (Hs : sessions w' = sessions w /\ (faults w = [] -> faults w' = [])).
    { unfold serve in E.
      destruct c; try (injection E as _ <-; split; [reflexivity | tauto]);
        destruct (faults w) as [|[x|] fs] eqn:F;
        try (destruct (perform _ (store w)) as [r0 s0] eqn:Pf);
        injection E as _ <-; cbn; split; try reflexivity; intro H;
        try discriminate; reflexivity. }
    destruct Hs as [Hs Hf]. destruct (IH r w') as [IHs IHf].
    split; [now rewrite IHs | intro H; apply IHf, Hf, H].
Qed.

(** Two syncs in a row: still one row, and still the role 'user' whatever
    was stored before the first. *)
Lemma sync_user_twice (req : Request) (w : World) (token uid : string)
    (session : Result) (user row : value) :
  method req = "POST" ->
  startsWith "supabase/data/sync_user" (strip_api (url req)) = true ->
  bearer_token req = Some token ->
  sessions w token = inr session ->
  truthy (error session) = false ->
  get (data session) "user" = user -> truthy user = true ->
  get user "id" = Str uid ->
  sync_row user (get (or (body req) (Obj [])) "email") = inr row ->
  faults w = [] ->
  length (filter (has_id (Str uid)) (users_rows (store w))) <= 1 ->
  exists r,
    filter (has_id (Str uid))
      (users_rows (store (snd (run req (snd (run req w)))))) = [r]
    /\ get r "role" = Str "user".
Proof.
  intros Hm Hp Ht Hs Herr Hu Htruthy Hid Hrow Hf Hone.
  assert (Hf0 : hd None (faults w) = None) by (rewrite Hf; reflexivity).
  destruct (sync_user_resets_role req w token uid session user row
              Hm Hp Ht Hs Herr Hu Htruthy Hid Hrow Hf0 Hone) as [_ [r1 [Hr1 _]]].
  destruct (exec_keeps_sessions (handler req) w) as [Hsess Hfaults].
  fold (run req w) in Hsess, Hfaults.
  apply (sync_user_resets_role req (snd (run req w)) token uid session user row);
    try assumption.
  - rewrite Hsess. exact Hs.
  - rewrite (Hfaults Hf). reflexivity.
  - rewrite Hr1. cbn. lia.
Qed.

(** What the role lookup of [admin/update] reports for a stored row, and for
    none. *)
Lemma lookup_reports_stored_role (s : Store) (id : value) :
  (filter (has_id id) (users_rows s) = [] ->
   perform (SelectMaybeSingle users "role" id) s = (result Null Null, s))
  /\ (forall r, filter (has_id id) (users_rows s) = [r] ->
      perform (SelectMaybeSingle users "role" id) s
      = (result (Obj [("role", get r "role")]) Null, s)).
Proof.
  split; [intro H | intros r H]; cbn [perform rows]; rewrite H; reflexivity.
Qed.

(** Whatever the service sends for an empty settings table (no data, and no
    error or the PGRST116 of [.single()]), the site route answers with the
    default. *)
Lemma site_default_when_no_data (r : Result) :
  truthy (data r) = false ->
  truthy (error r) = false \/ get (error r) "code" = Str "PGRST116" ->
  runs (try_catch data_site on_error)
    [Called (SelectSingle settings) (inr r)]
    (inr (respond 200 (Obj [("title", Str "Gorilla Hub"); ("about", Str "Welcome")]))).
Proof.
  intros Hd He. unfold runs, data_site, await. cbn [try_catch].
  apply reaches_Call.
  assert (E : truthy (error r) && negb (is_str (get (error r) "code") "PGRST116")
              = false).
  { destruct He as [H | H]; rewrite H; [reflexivity|]. cbn. apply andb_false_r. }
  rewrite E. unfold or. rewrite Hd. apply reaches_here.
Qed.

End SyncFacts.

(* ===================================================================== *)
(** ** Monitors and interactions *)
(* ===================================================================== *)

Section MonitorFacts.

Context {C Rp A : Type}.

Lemma reaches_Ret_inv (a : A) (t : list (Event C Rp)) (p' : Prog C Rp A) :
  reaches (Ret a) t p' -> t = [] /\ p' = Ret a.
Proof. inversion 1; subst; split; reflexivity. Qed.

Lemma never_throws_try_catch (p : Prog C Rp A) (h : Js.Exn -> Prog C Rp A) :
  (forall e, never_throws (h e)) -> never_throws (try_catch p h).
Proof.
  intro Hh. induction p as [a | e | tag e k IH | c k IH]; cbn.
  - exact I.
  - apply Hh.
  - exact IH.
  - intro r. apply IH.
Qed.

Lemma never_throws_reaches (p p' : Prog C Rp A) (t : list (Event C Rp)) :
  reaches p t p' -> never_throws p -> never_throws p'.
Proof.
  induction 1 as [p | tag e k t p' _ IH | c k x t p' _ IH]; intro H.
  - exact H.
  - apply IH, H.
  - apply IH, (H x).
Qed.

(** A program that never throws ends every interaction with a value. *)
Lemma never_throws_runs (p : Prog C Rp A) (t : list (Event C Rp)) (o : Js.Exn + A) :
  never_throws p -> runs p t o -> exists a, o = inr a.
Proof.
  intros H R. destruct o as [e | a]; [|exists a; reflexivity].
  exfalso. exact (never_throws_reaches p (Throw e) t R H).
Qed.

Context {S : Type} (step : S -> C -> Rp -> S) (allowed : S -> C -> Prop).

Lemma guarded_try_catch (p : Prog C Rp A) (h : Js.Exn -> Prog C Rp A) (s : S) :
  (forall e s', guarded step allowed s' (h e)) ->
  guarded step allowed s p -> guarded step allowed s (try_catch p h).
Proof.
  intro Hh. revert s.
  induction p as [a | e | tag e k IH | c k IH]; intros s H; cbn in *.
  - exact I.
  - apply Hh.
  - apply IH, H.
  - destruct H as [H0 H1]. split; [exact H0|]. intro r. apply IH, H1.
Qed.

(** Along every interaction, each call was allowed in the state the monitor
    had reached when it was issued. *)
Lemma guarded_sound (p p' : Prog C Rp A) (s : S) (t1 t2 : list (Event C Rp))
    (c : C) (r : Rp) :
  guarded step allowed s p ->
  reaches p (t1 ++ Called c r :: t2) p' ->
  allowed (observe step s t1) c.
Proof.
  revert p s. induction t1 as [|ev t1 IH]; intros p s G R; cbn in R.
  - inversion R; subst. cbn in G. exact (proj1 G).
  - inversion R; subst; cbn in G.
    + exact (IH _ _ G H3).
    + exact (IH _ _ (proj2 G _) H3).
Qed.

(** A program whose calls are all forbidden makes none. *)
Lemma guarded_silent (p p' : Prog C Rp A) (s : S) (t : list (Event C Rp)) :
  (forall s c, ~ allowed s c) ->
  guarded step allowed s p -> reaches p t p' -> called t = [].
Proof.
  intros Hno G R. revert s G.
  induction R as [p | tag e k t p' _ IH | c k x t p' _ IH]; intros s G.
  - reflexivity.
  - cbn. exact (IH s G).
  - cbn in G. destruct (Hno _ _ (proj1 G)).
Qed.

(** Calls that are all allowed by a rule without memory. *)
Lemma guarded_called (Q : C -> Prop) (p p' : Prog C Rp A) (s : S)
    (t : list (Event C Rp)) :
  guarded step (fun _ c => Q c) s p -> reaches p t p' -> Forall Q (called t).
Proof.
  intros G R. revert s G.
  induction R as [p | tag e k t p' _ IH | c k x t p' _ IH]; intros s G; cbn.
  - constructor.
  - exact (IH s G).
  - cbn in G. constructor; [exact (proj1 G) | exact (IH _ (proj2 G x))].
Qed.

(** An execution follows the interaction its world serves. *)
Lemma exec_served {W} (serve : C -> W -> Rp * W) (p p' : Prog C Rp A)
    (t : list (Event C Rp)) (w w' : W) :
  reaches p t p' -> served serve w t w' ->
  exec serve p w = exec serve p' w'.
Proof.
  intro R. revert w.
  induction R as [p | tag e k t p' _ IH | c k x t p' _ IH]; intros w Sv;
    inversion Sv; subst; cbn [exec].
  - reflexivity.
  - apply IH. assumption.
  - match goal with H : serve _ _ = _ |- _ => rewrite H end.
    apply IH. assumption.
Qed.

End MonitorFacts.

(* ===================================================================== *)
(** ** The completion proxy as a whole *)
(* ===================================================================== *)

Section AiWhole.
Import Js Ai.
Local Open Scope string_scope.

Lemma ai_on_error_total (e : Exn) : never_throws (on_error e).
Proof. exact I. Qed.

Lemma ai_answers (env : Env) (req : Request) :
  all_returns ai_answer (handler env req).
Proof.
  unfold handler, ai_answer.
  destruct (negb (method req =? "POST")); cbn;
    [right; split; [tauto | reflexivity]|].
  destruct (negb (truthy (message_of req)) || negb (is_string (message_of req)));
    cbn; [right; split; [tauto | reflexivity]|].
  destruct (OPENAI_API_KEY env) as [[|a k]|]; cbn;
    try (right; split; [tauto | reflexivity]).
  intros [e | r]; cbn; [right; split; [tauto | reflexivity]|].
  destruct (ok r); cbn.
  - destruct (json_body r) as [e | parsed]; cbn;
      [right; split; [tauto | reflexivity]|].
    destruct (extract_reply parsed) as [e | reply]; cbn;
      [right; split; [tauto | reflexivity]|].
    left. split; [reflexivity|]. exists reply, parsed. reflexivity.
  - destruct (text r) as [e | raw]; cbn; right; split; try tauto; reflexivity.
Qed.

(** The proxy always answers: whatever the provider does, no exception
    leaves the handler. *)
Theorem ai_always_answers (env : Env) (req : Request)
    (t : list (Event Cmd Reply)) (o : Exn + Response) :
  runs (handler env req) t o -> exists resp, o = inr resp.
Proof.
  apply never_throws_runs. unfold handler.
  apply never_throws_try_catch. exact ai_on_error_total.
Qed.

Lemma ai_always_answers_witness :
  exists resp,
    (inr (respond 500 (error_body (Str "network down"))) : Exn + Response) = inr resp.
Proof.
  apply (ai_always_answers {| OPENAI_API_KEY := Some "sk-test" |}
           {| method := "POST"; body := Obj [("message", Str "hello")] |}
           [Called (completion_call "sk-test" (Str "hello"))
                   (inl (mkExn "FetchError" "network down"));
            Logged "AI handler error" (mkExn "FetchError" "network down")]).
  apply reaches_Call. cbn. apply reaches_Log. apply reaches_here.
Defined.

(** The proxy answers 200 with exactly the fields [reply] and [raw], or
    400, 405 or 500 with a body whose first field is [error]. *)
Theorem ai_status_and_shape (env : Env) (req : Request)
    (t : list (Event Cmd Reply)) (resp : Response) :
  runs (handler env req) t (inr resp) ->
  (status resp = 200
   /\ exists reply raw, json resp = Obj [("reply", reply); ("raw", raw)])
  \/ (In (status resp) [400; 405; 500] /\ reports_error (json resp)).
Proof.
  intro R.
  exact (all_returns_runs ai_answer (handler env req) t resp (ai_answers env req) R).
Qed.

Lemma ai_status_and_shape_witness :
  (status (respond 500 (error_body (Str "network down"))) = 200
   /\ exists reply raw,
        json (respond 500 (error_body (Str "network down")))
        = Obj [("reply", reply); ("raw", raw)])
  \/ (In (status (respond 500 (error_body (Str "network down")))) [400; 405; 500]
      /\ reports_error (json (respond 500 (error_body (Str "network down"))))).
Proof.
  apply (ai_status_and_shape {| OPENAI_API_KEY := Some "sk-test" |}
           {| method := "POST"; body := Obj [("message", Str "hello")] |}
           [Called (completion_call "sk-test" (Str "hello"))
                   (inl (mkExn "FetchError" "network down"));
            Logged "AI handler error" (mkExn "FetchError" "network down")]).
  apply reaches_Call. cbn. apply reaches_Log. apply reaches_here.
Defined.

(** What follows the one request to the provider makes no further call. *)
Lemma after_fetch_silent (r : Reply) :
  guarded (fun (s : unit) (_ : Cmd) (_ : Reply) => s) (fun _ _ => False) tt
    (try_catch
       (match r with
        | inl e => Throw e
        | inr r =>
            if negb (ok r)
            then (text <- lift (text r) ;;
                  Ret (respond 500
                         (Obj [("error", Str "OpenAI error"); ("details", Str text)])))%prog
            else (json <- lift (json_body r) ;;
                  reply <- lift (extract_reply json) ;;
                  Ret (respond 200 (Obj [("reply", reply); ("raw", json)])))%prog
        end)
       on_error).
Proof.
  destruct r as [e | r]; cbn; [exact I|].
  destruct (ok r); cbn.
  - destruct (json_body r) as [e | parsed]; cbn; [exact I|].
    destruct (extract_reply parsed); cbn; exact I.
  - destruct (text r); cbn; exact I.
Qed.

(** The proxy calls the provider at most once per request, and only with
    the configured key and the request's own message, a non-empty string,
    after the fixed system prompt. *)
Theorem ai_single_forwarding_call (env : Env) (req : Request)
    (t : list (Event Cmd Reply)) (p' : Prog Cmd Reply Response) :
  reaches (handler env req) t p' ->
  called t = []
  \/ exists s k,
       method req = "POST" /\ message_of req = Str s /\ s <> ""
       /\ OPENAI_API_KEY env = Some k /\ k <> ""
       /\ called t = [completion_call k (Str s)].
Proof.
  intro R.
  destruct (method req =? "POST") eqn:Em.
  2:{ left. unfold handler in R. rewrite Em in R. cbn in R.
      apply reaches_Ret_inv in R. destruct R as [-> _]. reflexivity. }
  apply String.eqb_eq in Em.
  rewrite (handler_post env req Em) in R. cbv zeta in R.
  destruct (negb (truthy (message_of req)) || negb (is_string (message_of req)))
    eqn:Ev.
  { left. cbn in R. apply reaches_Ret_inv in R. destruct R as [-> _]. reflexivity. }
  destruct (valid_message_inv _ Ev) as [s [Hs Hne]].
  destruct (OPENAI_API_KEY env) as [[|a k]|] eqn:Ek;
    try (left; cbn in R; apply reaches_Ret_inv in R; destruct R as [-> _];
         reflexivity).
  cbn [try_catch] in R. rewrite Hs in R.
  inversion R; subst.
  - left. reflexivity.
  - right. exists s, (String a k).
    repeat split; try assumption; try discriminate.
    cbn [called flat_map app]. f_equal.
    exact (guarded_silent _ _ _ _ tt _ (fun _ _ F => F) (after_fetch_silent r) H3).
Qed.

Lemma ai_single_forwarding_call_witness :
  called [Called (completion_call "sk-test" (Str "hello"))
                 (inl (mkExn "FetchError" "network down") : Reply);
          Logged "AI handler error" (mkExn "FetchError" "network down")] = []
  \/ exists s k,
       method {| method := "POST"; body := Obj [("message", Str "hello")] |} = "POST"
       /\ message_of {| method := "POST"; body := Obj [("message", Str "hello")] |}
          = Str s
       /\ s <> ""
       /\ OPENAI_API_KEY {| OPENAI_API_KEY := Some "sk-test" |} = Some k /\ k <> ""
       /\ called [Called (completion_call "sk-test" (Str "hello"))
                         (inl (mkExn "FetchError" "network down") : Reply);
                  Logged "AI handler error" (mkExn "FetchError" "network down")]
          = [completion_call k (Str s)].
Proof.
  apply (ai_single_forwarding_call {| OPENAI_API_KEY := Some "sk-test" |}
           {| method := "POST"; body := Obj [("message", Str "hello")] |}
           [Called (completion_call "sk-test" (Str "hello"))
                   (inl (mkExn "FetchError" "network down"));
            Logged "AI handler error" (mkExn "FetchError" "network down")]
           (Ret (respond 500 (error_body (Str "network down"))))).
  apply reaches_Call. cbn. apply reaches_Log. apply reaches_here.
Defined.

(** A provider exchange that breaks (the fetch rejects, or reading the body
    of the answer rejects) is logged and answered 500 with the error's
    text. *)
Theorem ai_exchange_failure (env : Env) (req : Request) (s k : string) (e : Exn) :
  method req = "POST" -> message_of req = Str s -> s <> "" ->
  OPENAI_API_KEY env = Some k -> k <> "" ->
  runs (handler env req)
    [Called (completion_call k (Str s)) (inl e); Logged "AI handler error" e]
    (inr (respond 500 (error_body (Str (exn_text e)))))
  /\ forall r,
       (ok r = true /\ json_body r = inl e) \/ (ok r = false /\ text r = inl e) ->
       runs (handler env req)
         [Called (completion_call k (Str s)) (inr r); Logged "AI handler error" e]
         (inr (respond 500 (error_body (Str (exn_text e))))).
Proof.
  intros Hm Hmsg Hs Hk Hk'.
  destruct (handler_calls_provider env req s k Hm Hmsg Hs Hk Hk')
    as [cont [Hh Hcont]].
  split.
  - unfold runs. rewrite (handler_post env req Hm). cbv zeta. rewrite Hmsg, Hk.
    assert (Ht : negb (truthy (Str s)) || negb (is_string (Str s)) = false).
    { cbn. apply String.eqb_neq in Hs. rewrite Hs. reflexivity. }
    rewrite Ht. destruct k as [|a k]; [congruence|].
    cbn [try_catch]. apply reaches_Call. cbn.
    apply reaches_Log. apply reaches_here.
  - intros r Hr. unfold runs. rewrite Hh. apply reaches_Call. rewrite Hcont.
    destruct Hr as [[Hok He] | [Hok He]]; rewrite Hok, He; cbn;
      apply reaches_Log; apply reaches_here.
Qed.

Lemma ai_exchange_failure_witness :
  runs (handler {| OPENAI_API_KEY := Some "sk-test" |}
                {| method := "POST"; body := Obj [("message", Str "hello")] |})
    [Called (completion_call "sk-test" (Str "hello"))
            (inl (mkExn "FetchError" "network down"));
     Logged "AI handler error" (mkExn "FetchError" "network down")]
    (inr (respond 500 (error_body (Str "network down")))).
Proof.
  apply (ai_exchange_failure {| OPENAI_API_KEY := Some "sk-test" |}
           {| method := "POST"; body := Obj [("message", Str "hello")] |}
           "hello" "sk-test" (mkExn "FetchError" "network down"));
    try reflexivity; discriminate.
Defined.

End AiWhole.

(* ===================================================================== *)
(** ** The data router as a whole *)
(* ===================================================================== *)

Section RouterWhole.
Import Js Supabase.
Local Open Scope string_scope.

(** A property of the six routes and of the fallthrough is a property of
    the handler. *)
Lemma handler_cases (Q : P Response -> Prop) (req : Request) :
  Q (try_catch data_site on_error) ->
  Q (try_catch (data_list tutorials "title") on_error) ->
  Q (try_catch (data_list cosmetics "name") on_error) ->
  Q (try_catch (sync_user req) on_error) ->
  Q (try_catch (me req) on_error) ->
  Q (try_catch (admin_update req) on_error) ->
  Q (Ret (respond 404 (error_body (Str "Not found")))) ->
  Q (handler req).
Proof.
  intros H1 H2 H3 H4 H5 H6 H7. unfold handler. cbv zeta.
  repeat match goal with
         | |- context [if ?b then _ else _] => destruct b
         end; assumption.
Qed.

Ltac answer :=
  first [ left; reflexivity
        | right; split; [cbn; tauto | reflexivity] ].

Ltac crunch tac :=
  repeat (cbn -[member sync_row default_profile];
          match goal with
          | |- forall _ : Reply, _ => intros [? | ?]
          | |- context [bearer_token ?r] => destruct (bearer_token r)
          | |- context [member ?v ?k] => destruct (member v k)
          | |- context [sync_row ?u ?e] => destruct (sync_row u e)
          | |- context [default_profile ?u ?e] => destruct (default_profile u e)
          | |- context [if ?b then _ else _] => destruct b
          | |- context [match ?l with [] => _ | _ :: _ => _ end] => destruct l
          end);
  cbn; tac.

Lemma supabase_answers (req : Request) :
  all_returns supabase_answer (handler req).
Proof.
  apply handler_cases; unfold supabase_answer.
  - unfold data_site, await. crunch answer.
  - unfold data_list, await. crunch answer.
  - unfold data_list, await. crunch answer.
  - unfold sync_user, await. crunch answer.
  - unfold me, await. crunch answer.
  - unfold admin_update, perform_update, update_site, replace_collection, await.
    crunch answer.
  - answer.
Qed.


(** The router always answers: whatever the data service does, no exception
    leaves the handler. *)
Theorem supabase_always_answers (req : Request)
    (t : list (Event Cmd Reply)) (o : Exn + Response) :
  runs (handler req) t o -> exists resp, o = inr resp.
Proof.
  apply never_throws_runs. unfold handler. cbv zeta.
  apply never_throws_try_catch. intro e. exact I.
Qed.

Lemma supabase_always_answers_witness :
  exists resp,
    (inr (respond 500 (error_body (Str "socket hang up"))) : Exn + Response) = inr resp.
Proof.
  apply (supabase_always_answers
           (sample_request "GET" "/api/supabase/data/tutorials" Undefined)
           [Called (SelectOrdered tutorials "title")
                   (inl (mkExn "Error" "socket hang up"));
            Logged "supabase catch-all error" (mkExn "Error" "socket hang up")]).
  apply reaches_Call. cbn. apply reaches_Log. apply reaches_here.
Defined.

(** The router answers 200, or one of 400, 401, 403, 404, 500 with a body
    whose first field is [error]. *)
Theorem supabase_status_and_shape (req : Request)
    (t : list (Event Cmd Reply)) (resp : Response) :
  runs (handler req) t (inr resp) ->
  status resp = 200
  \/ (In (status resp) [400; 401; 403; 404; 500] /\ reports_error (json resp)).
Proof.
  intro R.
  exact (all_returns_runs supabase_answer (handler req) t resp
           (supabase_answers req) R).
Qed.

Lemma supabase_status_and_shape_witness :
  status (respond 500 (error_body (Str "socket hang up"))) = 200
  \/ (In (status (respond 500 (error_body (Str "socket hang up"))))
         [400; 401; 403; 404; 500]
      /\ reports_error (json (respond 500 (error_body (Str "socket hang up"))))).
Proof.
  apply (supabase_status_and_shape
           (sample_request "GET" "/api/supabase/data/tutorials" Undefined)
           [Called (SelectOrdered tutorials "title")
                   (inl (mkExn "Error" "socket hang up"));
            Logged "supabase catch-all error" (mkExn "Error" "socket hang up")]).
  apply reaches_Call. cbn. apply reaches_Log. apply reaches_here.
Defined.

End RouterWhole.

Section RouterPolicy.
Import Js Supabase Policy.
Local Open Scope string_scope.

Lemma on_error_guarded (e : Exn) (s : Clearance) :
  guarded step allowed s (on_error e).
Proof. exact I. Qed.

Ltac policy_done :=
  cbn;
  first [ exact I
        | reflexivity
        | split; reflexivity
        | eexists; eexists; split; [reflexivity | split; [reflexivity|]];
          match goal with
          | H : negb ?b = false |- ?b = true => now apply negb_false_iff in H
          end ].

Ltac policy_step :=
  cbn -[sync_row default_profile];
  match goal with
  | |- _ /\ _ => split
  | |- forall _ : Reply, _ => intros [? | ?]
  | |- context [bearer_token ?r] => destruct (bearer_token r)
  | |- context [member (data ?r) _] => destruct (data r)
  | |- context [member (lookup ?k ?ps) _] => destruct (lookup k ps)
  | |- context [sync_row ?u ?e] =>
      let E := fresh "E" in
      destruct (sync_row u e) eqn:E;
      [| apply sync_row_shape in E; destruct E as [? ->]]
  | |- context [default_profile ?u ?e] => destruct (default_profile u e)
  | |- context [if ?b then _ else _] => destruct b eqn:?
  | |- context [match ?l with [] => _ | _ :: _ => _ end] => destruct l
  end.

Lemma handler_guarded (req : Request) :
  guarded step allowed nobody (handler req).
Proof.
  apply handler_cases.
  - unfold data_site, await. repeat policy_step; policy_done.
  - unfold data_list, await. repeat policy_step; policy_done.
  - unfold data_list, await. repeat policy_step; policy_done.
  - unfold sync_user, await. repeat policy_step; policy_done.
  - unfold me, await. repeat policy_step; policy_done.
  - unfold admin_update, perform_update, update_site, replace_collection, await.
    repeat policy_step; policy_done.
  - exact I.
Qed.


(** Who may call what. Along every interaction of the handler: a row is
    looked up by id only under the id the identity service answered for the
    token; the [users] table is written only under the id of the resolved
    caller and only with the role 'user'; every other write comes after a
    role lookup for that same caller that reported 'admin' or 'dev'. *)
Theorem supabase_policy (req : Request) (t1 t2 : list (Event Cmd Reply))
    (c : Cmd) (r : Reply) (p' : P Response) :
  reaches (handler req) (t1 ++ Called c r :: t2) p' ->
  allowed (observe step nobody t1) c.
Proof.
  apply (guarded_sound step allowed (handler req) p' nobody t1 t2 c r).
  apply handler_guarded.
Qed.

Lemma supabase_policy_witness :
  allowed
    (observe step nobody
       (gate_trace "ann-token" ann_identity (result (Obj [("role", Str "dev")]) Null)))
    (Delete tutorials).
Proof.
  apply (supabase_policy replace_tutorials
           (gate_trace "ann-token" ann_identity
              (result (Obj [("role", Str "dev")]) Null))
           [] (Delete tutorials) (inr (result Null Null))
           (Call (Insert tutorials [Obj [("title", Str "A")]])
              (fun r => try_catch
                 (match r with
                  | inl e => Throw e
                  | inr x => if truthy (error x) then Ret (fail500 (error x))
                             else Ret (respond 200 ok_true)
                  end) on_error))).
  repeat (apply reaches_Call; cbn). apply reaches_here.
Defined.

End RouterPolicy.

(* ===================================================================== *)
(** ** Reads, rejections and edge cases of the router *)
(* ===================================================================== *)

Section RouterReads.
Import Js Supabase Policy.
Local Open Scope string_scope.

Lemma get_routes_quiet (req : Request) :
  method req = "GET" -> reads_only (handler req).
Proof.
  intro Hm. unfold reads_only, handler. cbv zeta. rewrite Hm.
  cbn [String.eqb Ascii.eqb Bool.eqb andb].
  repeat match goal with
         | |- context [if ?b then _ else _] => destruct b
         end;
    try exact I;
    [unfold data_site, await | unfold data_list, await
     | unfold data_list, await | unfold me, await];
    repeat (cbn -[member default_profile];
            match goal with
            | |- _ /\ _ => split
            | |- forall _ : Reply, _ => intros [? | ?]
            | |- context [bearer_token ?r] => destruct (bearer_token r)
            | |- context [member ?v ?k] => destruct (member v k)
            | |- context [default_profile ?u ?e] => destruct (default_profile u e)
            | |- context [if ?b then _ else _] => destruct b
            end);
    cbn; first [exact I | reflexivity].
Qed.

(** The service leaves the store alone on every call that is not a write. *)
Lemma serve_read_keeps_store (c : Cmd) (w : World) :
  is_write c = false -> store (snd (serve c w)) = store w.
Proof.
  intro H. unfold serve.
  destruct c; try discriminate; try reflexivity;
    destruct (faults w) as [|[x|] fs]; try reflexivity; cbn [perform];
    repeat match goal with
           | |- context [match ?l with [] => _ | _ :: _ => _ end] => destruct l
           end; reflexivity.
Qed.

Lemma quiet_keeps_store (p : P Response) (w : World) :
  reads_only p -> store (snd (exec serve p w)) = store w.
Proof.
  unfold reads_only. revert w.
  induction p as [a | e | tag e k IH | c k IH]; intros w G; cbn [exec].
  - reflexivity.
  - reflexivity.
  - apply IH, G.
  - cbn in G. destruct G as [Hc Hk].
    pose proof (serve_read_keeps_store c w Hc) as Hs.
    destruct (serve c w) as [r w1]. cbn in Hs.
    rewrite (IH r w1 (Hk r)). exact Hs.
Qed.

(** A GET request never writes: no interaction of the handler holds an
    upsert, a delete or an insert, and the store of the data service is
    what it was. *)
Theorem get_never_writes (req : Request) :
  method req = "GET" ->
  (forall t p', reaches (handler req) t p' ->
                Forall (fun c => is_write c = false) (called t))
  /\ forall w, store (snd (run req w)) = store w.
Proof.
  intro Hm. pose proof (get_routes_quiet req Hm) as Q. split.
  - intros t p' R.
    exact (guarded_called _ (fun c => is_write c = false) _ _ tt t Q R).
  - intro w. unfold run. apply quiet_keeps_store, Q.
Qed.

Lemma get_never_writes_witness :
  store (snd (run (sample_request "GET" "/api/supabase/data/me" Undefined)
                  (sample_world "admin" [])))
  = store (sample_world "admin" []).
Proof.
  apply (get_never_writes (sample_request "GET" "/api/supabase/data/me" Undefined)).
  reflexivity.
Defined.

End RouterReads.

Section RouterRejections.
Import Js Supabase.
Local Open Scope string_scope.

(** A token the identity service answers with an error: every route that
    resolves tokens stops there with 401 "Invalid token". *)
Theorem invalid_token_is_401 (req : Request) (token : string) (session : Result) :
  on_authenticated_route req = true ->
  bearer_token req = Some token ->
  truthy (error session) = true ->
  runs (handler req) [Called (GetUser token) (inr session)]
    (inr (respond 401 (error_body (Str "Invalid token")))).
Proof.
  intros Hr Ht He. unfold runs.
  destruct (authenticated_route_cases req Hr) as [E | [E | E]]; rewrite E;
    [unfold sync_user | unfold me | unfold admin_update];
    rewrite Ht; unfold await; cbn [try_catch]; apply reaches_Call;
    rewrite He; apply reaches_here.
Qed.

Lemma invalid_token_is_401_witness :
  runs (handler {| method := "GET"; url := "/api/supabase/data/me";
                   authorization := Some "Bearer stale"; body := Undefined |})
    [Called (GetUser "stale")
            (inr (result (Obj [("user", Null)]) (Obj [("message", Str "invalid JWT")])))]
    (inr (respond 401 (error_body (Str "Invalid token")))).
Proof.
  apply (invalid_token_is_401
           {| method := "GET"; url := "/api/supabase/data/me";
              authorization := Some "Bearer stale"; body := Undefined |}
           "stale"
           (result (Obj [("user", Null)]) (Obj [("message", Str "invalid JWT")])));
    reflexivity.
Defined.

(** An answer of the identity service without error and with a [null] user
    is treated differently by the three routes: [sync_user] says 404
    "User not found", [admin/update] says 401 "Invalid token", and [me],
    which reads [userData.user.id] unguarded, ends in its catch block with a
    logged TypeError and a 500. *)
Theorem nobody_behind_token (req : Request) (token : string) (session : Result)
    (fields : list (string * value)) :
  bearer_token req = Some token ->
  truthy (error session) = false ->
  data session = Obj fields -> lookup "user" fields = Null ->
  (method req = "POST" ->
   startsWith "supabase/data/sync_user" (strip_api (url req)) = true ->
   runs (handler req) [Called (GetUser token) (inr session)]
     (inr (respond 404 (error_body (Str "User not found")))))
  /\
  (method req = "POST" ->
   startsWith "supabase/admin/update" (strip_api (url req)) = true ->
   runs (handler req) [Called (GetUser token) (inr session)]
     (inr (respond 401 (error_body (Str "Invalid token")))))
  /\
  (method req = "GET" ->
   startsWith "supabase/data/me" (strip_api (url req)) = true ->
   runs (handler req)
     [Called (GetUser token) (inr session);
      Logged "supabase catch-all error" (nullish_read Null "id")]
     (inr (respond 500
             (error_body (Str "Cannot read properties of null (reading 'id')"))))).
Proof.
  intros Ht He Hd Hu. unfold runs. repeat split; intros Hm Hp.
  - rewrite (route_sync_user req Hm Hp). unfold sync_user, await. rewrite Ht.
    cbn [try_catch]. apply reaches_Call. rewrite He, Hd. cbn. rewrite Hu. cbn.
    apply reaches_here.
  - rewrite (route_admin_update req Hm Hp). unfold admin_update, await. rewrite Ht.
    cbn [try_catch]. apply reaches_Call. rewrite He, Hd. cbn. rewrite Hu. cbn.
    apply reaches_here.
  - rewrite (route_me req Hm Hp). unfold me, await. rewrite Ht.
    cbn [try_catch]. apply reaches_Call. rewrite He, Hd. cbn. rewrite Hu. cbn.
    apply reaches_Log. apply reaches_here.
Qed.

Lemma nobody_behind_token_witness :
  runs (handler {| method := "GET"; url := "/api/supabase/data/me";
                   authorization := Some "Bearer ghost"; body := Undefined |})
    [Called (GetUser "ghost") (inr (result (Obj [("user", Null)]) Null));
     Logged "supabase catch-all error" (nullish_read Null "id")]
    (inr (respond 500
            (error_body (Str "Cannot read properties of null (reading 'id')")))).
Proof.
  apply (nobody_behind_token
           {| method := "GET"; url := "/api/supabase/data/me";
              authorization := Some "Bearer ghost"; body := Undefined |}
           "ghost" (result (Obj [("user", Null)]) Null) [("user", Null)]);
    reflexivity.
Defined.

(** [me] with a resolved user: the stored row when the lookup finds one;
    otherwise a profile made up on the spot, with the role 'user' and, as
    name, the part of the email before the first '@', or 'User' when that
    part is empty or there is no email. Nothing is written. *)
Theorem me_profile (req : Request) (token : string) (session found : Result)
    (fields profile : list (string * value)) :
  method req = "GET" ->
  startsWith "supabase/data/me" (strip_api (url req)) = true ->
  bearer_token req = Some token ->
  truthy (error session) = false ->
  data session = Obj fields -> lookup "user" fields = Obj profile ->
  truthy (error found) = false ->
  let id := lookup "id" profile in
  let trace := [Called (GetUser token) (inr session);
                Called (SelectMaybeSingle users "*" id) (inr found)] in
  (truthy (data found) = true ->
   runs (handler req) trace (inr (respond 200 (data found))))
  /\
  (truthy (data found) = false ->
   (forall email,
      lookup "email" profile = Str email ->
      runs (handler req) trace
        (inr (respond 200
                (Obj [("id", id); ("email", Str email); ("role", Str "user");
                      ("name", Str (if split_head "@" email =? ""
                                    then "User" else split_head "@" email))])))) /\
   (lookup "email" profile = Undefined ->
    runs (handler req) trace
      (inr (respond 200
              (Obj [("id", id); ("email", Undefined); ("role", Str "user");
                    ("name", Str "User")]))))).
Proof.
  intros Hm Hp Ht He Hd Hu Hl id trace.
  assert (Start : reaches (handler req) trace
                    (try_catch
                       (if truthy (data found) then Ret (respond 200 (data found))
                        else (profile <- lift (default_profile id (Obj profile)) ;;
                              Ret (respond 200 profile))%prog)
                       on_error)).
  { rewrite (route_me req Hm Hp). unfold me, await, trace. rewrite Ht.
    cbn [try_catch]. apply reaches_Call. rewrite He, Hd. cbn. rewrite Hu. cbn.
    apply reaches_Call. rewrite Hl. apply reaches_here. }
  unfold runs. split.
  - intro Hrow. rewrite Hrow in Start. exact Start.
  - intro Hrow. rewrite Hrow in Start. unfold default_profile in Start. split.
    + intros email Hemail. cbn in Start. rewrite Hemail in Start. cbn in Start.
      unfold or in Start. cbn in Start.
      destruct (split_head "@" email =? "") eqn:E.
      * cbn in Start. exact Start.
      * cbn in Start. exact Start.
    + intro Hemail. cbn in Start. rewrite Hemail in Start. exact Start.
Qed.

Lemma me_profile_witness :
  runs (handler (sample_request "GET" "/api/supabase/data/me" Undefined))
    [Called (GetUser "ann-token") (inr ann_identity);
     Called (SelectMaybeSingle users "*" (Str "u1")) (inr (result Null Null))]
    (inr (respond 200
            (Obj [("id", Str "u1"); ("email", Str "ann@example.org");
                  ("role", Str "user"); ("name", Str "ann")]))).
Proof.
  apply (me_profile (sample_request "GET" "/api/supabase/data/me" Undefined)
           "ann-token" ann_identity (result Null Null)
           [("user", ann)]
           [("id", Str "u1"); ("email", Str "ann@example.org")]
           eq_refl eq_refl eq_refl eq_refl eq_refl eq_refl eq_refl);
    reflexivity.
Defined.

End RouterRejections.

Section AdminEdges.
Import Js Supabase.
Local Open Scope string_scope.

Lemma lookup_assign_absent (k : string) (extra base : list (string * value)) :
  existsb (fun p => fst p =? k) extra = false ->
  lookup k (assign base extra) = lookup k base.
Proof.
  unfold assign. revert base.
  induction extra as [|[k0 v0] extra IH]; intros base H; cbn in *; [reflexivity|].
  apply orb_false_iff in H. destruct H as [H0 H].
  rewrite (IH _ H), lookup_set_prop, H0. reflexivity.
Qed.

Lemma lookup_assign_present (k : string) (v : value)
    (extra base : list (string * value)) :
  NoDup (map fst extra) -> In (k, v) extra ->
  lookup k (assign base extra) = v.
Proof.
  unfold assign. revert base.
  induction extra as [|[k0 v0] extra IH]; intros base Hnd Hin; cbn in *;
    [contradiction|].
  inversion Hnd as [|? ? Hfresh Hrest]; subst.
  destruct Hin as [Heq | Hin].
  - injection Heq as -> ->.
    assert (Habs : existsb (fun p => fst p =? k) extra = false).
    { apply not_true_iff_false. intro Hex. apply existsb_exists in Hex.
      destruct Hex as [[k1 v1] [Hin1 Hk1]]. cbn in Hk1.
      apply String.eqb_eq in Hk1. subst k1.
      apply Hfresh. apply in_map_iff. exists (k, v1). split; [reflexivity | exact Hin1]. }
    pose proof (lookup_assign_absent k extra (set_prop k v base) Habs) as E.
    unfold assign in E. rewrite E, lookup_set_prop, String.eqb_refl. reflexivity.
  - apply IH; assumption.
Qed.

(** An authorised caller: a POST on [admin/update] whose token resolves to a
    user for whom the role lookup reports 'admin' or 'dev'. *)
Variables (req : Request) (token : string) (session found : Result).
Hypothesis Hmethod : method req = "POST".
Hypothesis Hpath : startsWith "supabase/admin/update" (strip_api (url req)) = true.
Hypothesis Htoken : bearer_token req = Some token.
Hypothesis Hsession : truthy (error session) = false.
Hypothesis Huser : truthy (get (data session) "user") = true.
Hypothesis Hfound : truthy (error found) = false.
Hypothesis Hrole : privileged (effective_role (data found)) = true.

Lemma reaches_update :
  reaches (handler req) (gate_trace token session found)
    (try_catch (perform_update req) on_error).
Proof.
  pose proof (reaches_gate req token session found
                Hmethod Hpath Htoken Hsession Huser Hfound) as G.
  rewrite Hrole in G. exact G.
Qed.

(** An update without a usable [type] is refused with 400 after the role
    check, and before any write: "Missing type" when the field is absent or
    falsy, "Unknown update type" when it is none of 'site', 'tutorials',
    'cosmetics'. *)
Theorem update_type_is_checked :
  let type := get (or (body req) (Obj [])) "type" in
  (truthy type = false ->
   runs (handler req) (gate_trace token session found)
     (inr (respond 400 (error_body (Str "Missing type")))))
  /\
  (truthy type = true ->
   is_str type "site" = false -> is_str type "tutorials" = false ->
   is_str type "cosmetics" = false ->
   runs (handler req) (gate_trace token session found)
     (inr (respond 400 (error_body (Str "Unknown update type"))))).
Proof.
  cbv zeta. pose proof reaches_update as G. unfold perform_update in G.
  cbv zeta in G. unfold runs. split.
  - intro H. rewrite H in G. exact G.
  - intros H H1 H2 H3. rewrite H, H1, H2, H3 in G. exact G.
Qed.

(** A collection update whose payload is not an array, or is an empty one,
    deletes the collection and answers 200 [{ok:true}] without inserting;
    the answer is the same whatever the delete came back with, an error
    included. *)
Theorem replace_without_rows (t : Table) (del : Result) :
  (t = tutorials /\ get (or (body req) (Obj [])) "type" = Str "tutorials")
  \/ (t = cosmetics /\ get (or (body req) (Obj [])) "type" = Str "cosmetics") ->
  as_array (get (or (body req) (Obj [])) "payload") = [] ->
  runs (handler req)
    (gate_trace token session found ++ [Called (Delete t) (inr del)])
    (inr (respond 200 ok_true)).
Proof.
  intros Htype Hempty. unfold runs.
  eapply reaches_app; [exact reaches_update|].
  unfold perform_update. cbv zeta.
  destruct Htype as [[-> ->] | [-> ->]]; cbn;
    unfold replace_collection, await; rewrite Hempty; cbn;
    apply reaches_Call; cbn; apply reaches_here.
Qed.

(** The [site] update upserts the payload object under the id 1, unless the
    payload brings an [id] of its own: then that id is the key of the
    upsert. *)
Theorem site_update_key (fields : list (string * value)) :
  get (or (body req) (Obj [])) "type" = Str "site" ->
  get (or (body req) (Obj [])) "payload" = Obj fields ->
  (exists k,
     reaches (handler req) (gate_trace token session found)
       (Call (Upsert settings (Obj (assign [("id", Num 1)] fields))) k))
  /\ (existsb (fun p => fst p =? "id") fields = false ->
      get (Obj (assign [("id", Num 1)] fields)) "id" = Num 1)
  /\ (forall id, NoDup (map fst fields) -> In ("id", id) fields ->
      get (Obj (assign [("id", Num 1)] fields)) "id" = id).
Proof.
  intros Htype Hpayload. split; [|split].
  - pose proof reaches_update as G. unfold perform_update in G.
    cbv zeta in G. rewrite Htype, Hpayload in G. cbn in G.
    eexists. exact G.
  - intro H. cbn [get]. rewrite (lookup_assign_absent "id" fields _ H). reflexivity.
  - intros id Hnd Hin. cbn [get]. exact (lookup_assign_present "id" id fields _ Hnd Hin).
Qed.

End AdminEdges.

Section AdminEdgeCases.
Import Js Supabase.
Local Open Scope string_scope.

Lemma update_type_is_checked_witness :
  runs (handler (admin_request (Obj [("type", Str "users"); ("payload", Arr [])])))
    (gate_trace "ann-token" ann_identity reported_admin)
    (inr (respond 400 (error_body (Str "Unknown update type")))).
Proof.
  apply (update_type_is_checked
           (admin_request (Obj [("type", Str "users"); ("payload", Arr [])]))
           "ann-token" ann_identity reported_admin
           eq_refl eq_refl eq_refl eq_refl eq_refl eq_refl eq_refl);
    reflexivity.
Defined.

Lemma replace_without_rows_witness :
  runs (handler (admin_request
                   (Obj [("type", Str "cosmetics");
                         ("payload", Obj [("name", Str "Hat")])])))
    (gate_trace "ann-token" ann_identity reported_admin
       ++ [Called (Delete cosmetics)
                  (inr (result Null (Obj [("message", Str "delete failed")])))])
    (inr (respond 200 ok_true)).
Proof.
  apply (replace_without_rows
           (admin_request
              (Obj [("type", Str "cosmetics"); ("payload", Obj [("name", Str "Hat")])]))
           "ann-token" ann_identity reported_admin
           eq_refl eq_refl eq_refl eq_refl eq_refl eq_refl eq_refl
           cosmetics (result Null (Obj [("message", Str "delete failed")])));
    [right; split; reflexivity | reflexivity].
Defined.

Lemma site_update_key_witness :
  get (Obj (assign [("id", Num 1)] [("title", Str "Hub"); ("id", Num 7)])) "id"
  = Num 7.
Proof.
  apply (site_update_key
           (admin_request
              (Obj [("type", Str "site");
                    ("payload", Obj [("title", Str "Hub"); ("id", Num 7)])]))
           "ann-token" ann_identity reported_admin
           eq_refl eq_refl eq_refl eq_refl eq_refl eq_refl eq_refl
           [("title", Str "Hub"); ("id", Num 7)] eq_refl eq_refl).
  - repeat constructor; cbn; intuition discriminate.
  - right. left. reflexivity.
Defined.

End AdminEdgeCases.

(* ===================================================================== *)
(** ** Updates against the store *)
(* ===================================================================== *)

Section StoreUpdates.
Import Js Supabase Policy.
Local Open Scope string_scope.

Lemma rows_set_rows (t : Table) (rs : list value) (s : Store) :
  rows t (set_rows t rs s) = rs.
Proof. destruct t; reflexivity. Qed.

Lemma rows_set_rows_other (t t' : Table) (rs : list value) (s : Store) :
  t' <> t -> rows t' (set_rows t rs s) = rows t' s.
Proof. destruct t, t'; intro H; try reflexivity; congruence. Qed.

Lemma serve_read_same_world (c : Cmd) (w : World) :
  is_write c = false -> faults w = [] -> snd (serve c w) = w.
Proof.
  intros Hc Hf. destruct w as [s ses fs]. cbn in Hf. subst fs.
  destruct c; try discriminate; try reflexivity; cbn;
    repeat match goal with
           | |- context [match ?l with [] => _ | _ :: _ => _ end] => destruct l
           end; reflexivity.
Qed.

Lemma perform_update_collection (r : Request) (t : Table) :
  (t = tutorials /\ get (or (body r) (Obj [])) "type" = Str "tutorials")
  \/ (t = cosmetics /\ get (or (body r) (Obj [])) "type" = Str "cosmetics") ->
  perform_update r = replace_collection t (get (or (body r) (Obj [])) "payload").
Proof.
  intros [[-> H] | [-> H]]; unfold perform_update; cbv zeta; rewrite H; reflexivity.
Qed.

Lemma perform_update_site (r : Request) :
  get (or (body r) (Obj [])) "type" = Str "site" ->
  perform_update r = update_site (get (or (body r) (Obj [])) "payload").
Proof.
  intro H. unfold perform_update. cbv zeta. rewrite H. reflexivity.
Qed.

(** An authorised caller in front of a service that has no fault pending:
    the token resolves, and the role lookup, as the service carries it out
    on the store, reports 'admin' or 'dev'. *)
Variables (req : Request) (w : World) (token : string) (session found : Result).
Hypothesis Hmethod : method req = "POST".
Hypothesis Hpath : startsWith "supabase/admin/update" (strip_api (url req)) = true.
Hypothesis Htoken : bearer_token req = Some token.
Hypothesis Hresolves : sessions w token = inr session.
Hypothesis Hsession : truthy (error session) = false.
Hypothesis Huser : truthy (get (data session) "user") = true.
Hypothesis Hlooked :
  fst (perform (SelectMaybeSingle users "role" (get (get (data session) "user") "id"))
         (store w)) = found.
Hypothesis Hfound : truthy (error found) = false.
Hypothesis Hrole : privileged (effective_role (data found)) = true.
Hypothesis Hcalm : faults w = [].

Lemma gate_served : served serve w (gate_trace token session found) w.
Proof.
  unfold gate_trace.
  apply served_Called with (w1 := w).
  { cbn. rewrite Hresolves. reflexivity. }
  apply served_Called with (w1 := w); [|apply served_none].
  pose proof (serve_read_same_world
                (SelectMaybeSingle users "role" (get (get (data session) "user") "id"))
                w eq_refl Hcalm) as Hw.
  destruct (serve _ w) as [r w1] eqn:E. cbn in Hw. subst w1. f_equal.
  unfold serve in E. rewrite Hcalm in E.
  destruct (perform _ (store w)) as [r0 s0]. cbn in Hlooked. subst r0.
  now injection E as <- _.
Qed.

Lemma run_is_update :
  run req w = exec serve (try_catch (perform_update req) on_error) w.
Proof.
  unfold run. apply (exec_served serve _ _ (gate_trace token session found)).
  - pose proof (reaches_gate req token session found
                  Hmethod Hpath Htoken Hsession Huser Hfound) as G.
    rewrite Hrole in G. exact G.
  - exact gate_served.
Qed.

(** A collection update that goes through leaves in the collection exactly
    the rows of the payload, in the payload's order (none when the payload
    is no array), answers 200 [{ok:true}], and touches no other table. *)
Theorem replace_installs_payload (t : Table) :
  (t = tutorials /\ get (or (body req) (Obj [])) "type" = Str "tutorials")
  \/ (t = cosmetics /\ get (or (body req) (Obj [])) "type" = Str "cosmetics") ->
  let arr := as_array (get (or (body req) (Obj [])) "payload") in
  fst (run req w) = inr (respond 200 ok_true)
  /\ rows t (store (snd (run req w))) = map wire arr
  /\ length (rows t (store (snd (run req w)))) = length arr
  /\ forall t', t' <> t ->
       rows t' (store (snd (run req w))) = rows t' (store w).
Proof.
  intros Htype arr. rewrite run_is_update.
  rewrite (perform_update_collection req t Htype).
  assert (E : exec serve
                (try_catch (replace_collection t
                              (get (or (body req) (Obj [])) "payload")) on_error) w
              = (inr (respond 200 ok_true),
                 {| store := set_rows t (map wire arr) (store w);
                    sessions := sessions w; faults := [] |})).
  { unfold replace_collection, await. fold arr. cbn [try_catch exec].
    unfold serve at 1. rewrite Hcalm.
    assert (Hd : perform (Delete t) (store w)
                 = (result Null Null, set_rows t [] (store w))) by reflexivity.
    rewrite Hd. cbn [try_catch].
    destruct arr as [|first others] eqn:Ea.
    - cbn. destruct t; reflexivity.
    - cbn [try_catch exec serve faults store sessions perform].
      cbn [error truthy try_catch exec].
      f_equal. f_equal. rewrite rows_set_rows.
      destruct t; reflexivity. }
  rewrite E. cbn [fst snd store].
  split; [reflexivity|]. split; [apply rows_set_rows|].
  split; [rewrite rows_set_rows; apply length_map|].
  intros t' Hne. apply rows_set_rows_other, Hne.
Qed.

(** A [site] update on an empty settings table, then a read of the site
    route: the read answers 200 with the payload object under the id 1 (the
    payload's own [id], if it has one), fields that are [undefined] left
    out. *)
Theorem site_update_then_read (fields : list (string * value)) (reader : Request) :
  get (or (body req) (Obj [])) "type" = Str "site" ->
  get (or (body req) (Obj [])) "payload" = Obj fields ->
  settings_rows (store w) = [] ->
  method reader = "GET" ->
  startsWith "supabase/data/site" (strip_api (url reader)) = true ->
  fst (run reader (snd (run req w)))
  = inr (respond 200 (Obj (stringify_props (assign [("id", Num 1)] fields)))).
Proof.
  intros Htype Hpayload Hempty Hm Hp.
  rewrite run_is_update, (perform_update_site req Htype), Hpayload.
  unfold update_site, await. cbn [isArray spread try_catch exec].
  unfold serve at 1. rewrite Hcalm. cbn [perform rows]. rewrite Hempty.
  cbn [upsert_row wire error truthy try_catch exec snd].
  unfold run. rewrite (route_site reader Hm Hp).
  unfold data_site, await. cbn. reflexivity.
Qed.

End StoreUpdates.

Section StoreUpdateCases.
Import Js Supabase.
Local Open Scope string_scope.

Lemma replace_installs_payload_witness :
  fst (run replace_tutorials (sample_world "admin" [])) = inr (respond 200 ok_true)
  /\ rows tutorials (store (snd (run replace_tutorials (sample_world "admin" []))))
     = [Obj [("title", Str "A")]]
  /\ length (rows tutorials
               (store (snd (run replace_tutorials (sample_world "admin" []))))) = 1
  /\ forall t', t' <> tutorials ->
       rows t' (store (snd (run replace_tutorials (sample_world "admin" []))))
       = rows t' (store (sample_world "admin" [])).
Proof.
  apply (replace_installs_payload replace_tutorials (sample_world "admin" [])
           "ann-token" ann_identity reported_admin
           eq_refl eq_refl eq_refl eq_refl eq_refl eq_refl eq_refl eq_refl eq_refl
           eq_refl tutorials).
  left. split; reflexivity.
Defined.

Lemma site_update_then_read_witness :
  fst (run (sample_request "GET" "/api/supabase/data/site" Undefined)
         (snd (run (admin_request
                      (Obj [("type", Str "site");
                            ("payload", Obj [("title", Str "Hub")])]))
                   (sample_world "admin" []))))
  = inr (respond 200 (Obj [("id", Num 1); ("title", Str "Hub")])).
Proof.
  apply (site_update_then_read
           (admin_request
              (Obj [("type", Str "site"); ("payload", Obj [("title", Str "Hub")])]))
           (sample_world "admin" [])
           "ann-token" ann_identity reported_admin
           eq_refl eq_refl eq_refl eq_refl eq_refl eq_refl eq_refl eq_refl eq_refl
           eq_refl [("title", Str "Hub")]
           (sample_request "GET" "/api/supabase/data/site" Undefined));
    reflexivity.
Defined.

End StoreUpdateCases.

(* ===================================================================== *)
(** ** The route table and the route parts *)
(* ===================================================================== *)

Section RouteTable.
Import Js Supabase Routes.
Local Open Scope string_scope.

(** No request matches two entries of the route table: the order of the
    guards in the handler decides nothing. *)
Theorem routes_are_exclusive (req : Request) :
  length (filter (entry_matches req) route_table) <= 1.
Proof.
  unfold route_table, entry_matches, route_matches. cbn [filter fst snd].
  destruct (method req =? "GET") eqn:G; destruct (method req =? "POST") eqn:Po;
    [apply String.eqb_eq in G; apply String.eqb_eq in Po; congruence | | |];
    cbn [andb];
    repeat match goal with
           | |- context [startsWith ?p ?s] => destruct (startsWith p s) eqn:?
           end;
    cbn [length]; try lia; exfalso;
    match goal with
    | H1 : startsWith ?p ?s = true, H2 : startsWith ?q ?s = true |- _ =>
        let rest := fresh "rest" in
        let E := fresh "E" in
        destruct (startsWith_inv _ _ H1) as [rest E];
        rewrite E in H2; cbn in H2; discriminate
    end.
Qed.

(** The token is [null] exactly when the Authorization header is absent,
    empty, or the bare scheme 'Bearer '. *)
Theorem token_is_null_exactly (req : Request) :
  bearer_token req = None
  <-> authorization req = None
      \/ authorization req = Some ""
      \/ authorization req = Some "Bearer ".
Proof.
  split; intro H.
  - apply carries_no_token_iff in H. exact H.
  - apply carries_no_token_iff. exact H.
Qed.

Lemma split_pieces_clean (s : string) :
  Forall (fun piece => includes "/" piece = false) (split "/" s).
Proof.
  induction s as [|c s IH]; cbn [split].
  - constructor; [reflexivity | constructor].
  - destruct (Ascii.eqb c "/") eqn:E.
    + constructor; [reflexivity | exact IH].
    + destruct (split "/" s) as [|piece pieces].
      * constructor; [|constructor]. cbn [includes startsWith].
        rewrite Ascii.eqb_sym, E. reflexivity.
      * inversion IH as [|? ? Hp Hps]; subst.
        constructor; [|exact Hps].
        cbn [includes startsWith]. rewrite Ascii.eqb_sym, E. exact Hp.
Qed.

Lemma split_after_segment (a rest : string) :
  includes "/" a = false ->
  split "/" (a ++ String "/" rest) = a :: split "/" rest.
Proof.
  induction a as [|c a IH]; intro H; cbn [append split].
  - reflexivity.
  - cbn [includes startsWith] in H. apply orb_false_iff in H.
    destruct H as [Hc Ha].
    destruct (Ascii.eqb c "/") eqn:E.
    + rewrite Ascii.eqb_sym, E in Hc. destruct a; discriminate.
    + rewrite (IH Ha). reflexivity.
Qed.

(** [getRouteParts] without a slug in the query falls back on the url: its
    parts are then the non-empty, slash-free segments of the url after the
    first one. For [/mount/rest] the mount point is dropped and the
    segments of [rest] remain. *)
Theorem route_parts_from_url (query : value) (url : string) :
  opt_member query "supabase" = Undefined ->
  opt_member query "slug" = Undefined ->
  opt_member query "...supabase" = Undefined ->
  Forall (fun part => exists s, part = Str s /\ s <> "" /\ includes "/" s = false)
    (getRouteParts query url)
  /\ forall mount rest,
       mount <> "" -> includes "/" mount = false ->
       url = String "/" (mount ++ String "/" rest) ->
       getRouteParts query url = map Str (filter nonempty (split "/" rest)).
Proof.
  intros H1 H2 H3. unfold getRouteParts. rewrite H1, H2, H3. cbn [or truthy].
  split.
  - destruct (nonempty url); [|constructor].
    assert (F : Forall (fun part => exists s, part = Str s /\ s <> ""
                                              /\ includes "/" s = false)
                  (map Str (filter nonempty (split "/" url)))).
    { apply Forall_forall. intros part Hin.
      apply in_map_iff in Hin. destruct Hin as [s [<- Hs]].
      apply filter_In in Hs. destruct Hs as [Hs Hne].
      exists s. split; [reflexivity|]. split.
      - unfold nonempty in Hne. apply negb_true_iff in Hne.
        now apply String.eqb_neq in Hne.
      - pose proof (split_pieces_clean url) as C.
        rewrite Forall_forall in C. exact (C s Hs). }
    destruct (map Str (filter nonempty (split "/" url))); [constructor|].
    inversion F; assumption.
  - intros mount rest Hne Hclean ->.
    cbn [nonempty String.eqb negb split Ascii.eqb Bool.eqb].
    rewrite (split_after_segment mount rest Hclean).
    cbn [filter]. cbn [nonempty String.eqb negb].
    assert (Hm : nonempty mount = true).
    { unfold nonempty. apply negb_true_iff. now apply String.eqb_neq. }
    rewrite Hm. reflexivity.
Qed.

Lemma route_parts_from_url_witness :
  getRouteParts (Obj []) "/api/supabase/data/site"
  = [Str "supabase"; Str "data"; Str "site"].
Proof.
  apply (proj2 (route_parts_from_url (Obj []) "/api/supabase/data/site"
                  eq_refl eq_refl eq_refl) "api" "supabase/data/site");
    [discriminate | reflexivity | reflexivity].
Defined.

End RouteTable.

Section RoutePrefixes.
Import Js Supabase.
Local Open Scope string_scope.

(** Routing looks at the method and at the start of the path only: under
    the mount point [/api/], whatever follows an entry's prefix (a further
    segment, a query string) leaves the request on that entry's route. *)
Theorem route_ignores_suffix (req : Request)
    (e : string * string * (Request -> P Response)) (suffix : string) :
  In e route_table ->
  method req = fst (fst e) ->
  url req = "/api/" ++ snd (fst e) ++ suffix ->
  handler req = try_catch (snd e req) on_error.
Proof.
  intros Hin Hm Hu. unfold handler. cbv zeta. rewrite Hm, Hu.
  unfold route_table in Hin. cbn [In] in Hin.
  repeat (destruct Hin as [<- | Hin]; [reflexivity|]).
  contradiction.
Qed.

Lemma route_ignores_suffix_witness :
  handler {| method := "GET"; url := "/api/supabase/data/tutorials?page=2";
             authorization := None; body := Undefined |}
  = try_catch (data_list tutorials "title") on_error.
Proof.
  apply (route_ignores_suffix
           {| method := "GET"; url := "/api/supabase/data/tutorials?page=2";
              authorization := None; body := Undefined |}
           ("GET", "supabase/data/tutorials", fun _ => data_list tutorials "title")
           "?page=2");
    [right; left; reflexivity | reflexivity | reflexivity].
Defined.

Lemma sync_user_twice_witness :
  exists r,
    filter (has_id (Str "u1"))
      (users_rows (store (snd (run sync_ann (snd (run sync_ann (sample_world "dev" [])))))))
    = [r]
    /\ get r "role" = Str "user".
Proof.
  apply (sync_user_twice sync_ann (sample_world "dev" []) "ann-token" "u1"
           ann_identity ann
           (Obj [("id", Str "u1"); ("email", Str "ann@example.org");
                 ("role", Str "user"); ("name", Str "ann")]));
    reflexivity.
Defined.

End RoutePrefixes.
